(** * WelearnBrainBurst: task orchestration and session state of [app.py]

    A shallow embedding of the orchestration core of [src/app.py]: the
    [GlobalState] singleton, the Flask handlers [api_login], [get_courses],
    [get_lessions], [start_task], [stop_tasks], [get_status], and the two
    worker threads [BrainBurstThread] and [AwayFromKeyboardThread].

    Conventions of the model.
    - A handler runs atomically with respect to the other handlers (one
      control-plane thread); worker threads advance one Python statement
      at a time and interleave freely with the handlers.  [stop_tasks]
      blocks in [join], so the worker steps that happen while it waits are
      part of its label.
    - Thread objects live in a pool indexed by allocation order;
      [state.active_threads] holds references (indices) into that pool, so
      a thread survives the list that registered it.
    - [state.stop_event] is the only reference ever held to an Event
      object, so the object is represented by its flag: [threading.Event()]
      is [false], [.set()] writes [true], [.is_set()] reads it.
    - The remote site ([validate_cookies], the course queries) and
      [random.randint] are oracles carried by the labels.  Logging, the
      write of [config.json] and [Thread.start] are assumed not to raise. *)

From stdpp Require Import base list strings gmap sorting.
From Stdlib Require Import ZArith Ascii.

Local Open Scope Z_scope.

(** ** Data model *)

(** [TaskStatusType = Literal["idle", "brain_burst", "away_from_keyboard",
    "error", "completed", "nologon"]]. *)
Inductive TaskStatusType :=
| idle
| brain_burst
| away_from_keyboard
| error
| completed
| nologon.

#[global] Instance TaskStatusType_eq_dec : EqDecision TaskStatusType.
Proof. solve_decision. Defined.

(** [ProgressInfo]: the dict [{"current": int, "total": int}]. *)
Record ProgressInfo := mkProgress { current : Z; total : Z }.

#[global] Instance ProgressInfo_eq_dec : EqDecision ProgressInfo.
Proof. solve_decision. Defined.

(** The values [data["unitIndex"]] and [data["params"]] can take.  JSON
    numbers (and booleans, which are ints for [range]) are [PyInt], JSON
    arrays are [PyList]; [PyTuple] only arises when a thread is
    constructed directly from Python; [PyOther] stands for the remaining
    values (strings, objects, null, floats), none of which is accepted by
    [range]. *)
Inductive PyVal :=
| PyInt (n : Z)
| PyTuple (items : list Z)
| PyList (items : list Z)
| PyOther.

(** Exceptions raised inside the modelled code. *)
Inductive PyExc :=
| ValueError_dict_update (index : nat)  (* dict(): element #index has length 1; 2 is required *)
| TypeError_range                       (* range(): object cannot be interpreted as an integer *)
| TypeError_randint                     (* randint unpacking a tuple whose length is not 2 *)
| ValueError_randint                    (* randint(a, b) with b < a: empty range *)
| RemoteError.                          (* any failure of a remote query *)

Inductive Result (A : Type) :=
| Ok (a : A)
| Raise (e : PyExc).
Arguments Ok {A} a.
Arguments Raise {A} e.

(** The two thread classes. *)
Inductive TaskKind :=
| BrainBurst
| AwayFromKeyboard.

#[global] Instance TaskKind_eq_dec : EqDecision TaskKind.
Proof. solve_decision. Defined.

(** Where a started thread stands in its [run] method.  The loop states
    carry the loop variable [i], the exclusive bound [hi] of the [range]
    object and the [total] written into the progress dict. *)
Inductive Pc :=
| Spawned                   (* start() returned; run() has not executed a statement *)
| Resolve                   (* task_status written; next: evaluate the loop header *)
| Check (i hi total : Z)    (* next(range) then stop_event.is_set() *)
| Write (i hi total : Z)    (* state.progress = {"current": i, "total": total} *)
| Sleep (i hi total : Z)    (* inside time.sleep *)
| Finish                    (* state.task_status = "completed" *)
| Except                    (* handler: log_message; state.task_status = "error" *)
| Done.                     (* run() returned: the thread is no longer alive *)

#[global] Instance Pc_eq_dec : EqDecision Pc.
Proof. solve_decision. Defined.

(** A [threading.Thread] object: its class, constructor arguments and
    position. *)
Record Thread := mkThread {
  kind : TaskKind;
  unit_idx : PyVal;
  param : PyVal;     (* self.mycrate / self.duration *)
  pc : Pc
}.

(** [GlobalState].  [current_task], [cid], [uid] and [classid] are only
    ever assigned [None] and [log_buffer] is write-only; they are left
    out. *)
Record GlobalState := mkState {
  task_status : TaskStatusType;
  progress : ProgressInfo;
  stop_event : bool;
  active_threads : list nat;
  cookies : option (gmap string string)
}.

(** The process: the [state] singleton, the pool of Thread objects and the
    cookie jar of the module-level [client]. *)
Record System := mkSystem {
  state : GlobalState;
  threads : list Thread;
  client_cookies : gmap string string
}.

(** [error=...] of a JSON reply: a literal message or [str(e)]. *)
Inductive ErrorText :=
| Literal (s : string)
| StrOf (e : PyExc).

Inductive Response :=
| Json (success : bool) (err : ErrorText)
| StatusJson (status : TaskStatusType) (prog : ProgressInfo) (activeThreads : nat).

(** What a step does besides updating the state. *)
Inductive Event :=
| EResponse (r : Response)                       (* the handler returned jsonify(...) *)
| EJoin (tid : nat) (timeout : Z) (finished : bool) (* t.join(timeout=...) returned; was t done? *)
| EConfig (text : string)                        (* json.dump({"cookies": text}) into config.json *)
| EProgress (tid : nat) (p : ProgressInfo)       (* thread tid assigned state.progress *)
| ESleep (tid : nat) (millis : Z).               (* thread tid returned from time.sleep *)

Definition MSG_BUSY : string := "已有任务在进行中".
Definition MSG_UNKNOWN_TYPE : string := "未知任务类型".
Definition MSG_PLEASE_LOGIN : string := "请先登录".
Definition MSG_COOKIE_REJECTED : string := "Cookie验证失败".

(** ** GlobalState.reset *)

(** [reset] assigns every attribute afresh, whatever it held before. *)
Definition reset : GlobalState :=
  {| task_status := nologon;
     progress := mkProgress 0 0;
     stop_event := false;
     active_threads := [];
     cookies := None |}.

(** [state = GlobalState()] at import time, an empty pool and an empty
    jar. *)
Definition init : System :=
  {| state := reset; threads := []; client_cookies := ∅ |}.

Definition with_state (f : GlobalState → GlobalState) (sys : System) : System :=
  {| state := f (state sys);
     threads := threads sys;
     client_cookies := client_cookies sys |}.

Definition set_status (st : TaskStatusType) (g : GlobalState) : GlobalState :=
  {| task_status := st;
     progress := progress g;
     stop_event := stop_event g;
     active_threads := active_threads g;
     cookies := cookies g |}.

Definition set_progress (p : ProgressInfo) (g : GlobalState) : GlobalState :=
  {| task_status := task_status g;
     progress := p;
     stop_event := stop_event g;
     active_threads := active_threads g;
     cookies := cookies g |}.

Definition set_stop_event (b : bool) (g : GlobalState) : GlobalState :=
  {| task_status := task_status g;
     progress := progress g;
     stop_event := b;
     active_threads := active_threads g;
     cookies := cookies g |}.

Definition set_active_threads (l : list nat) (g : GlobalState) : GlobalState :=
  {| task_status := task_status g;
     progress := progress g;
     stop_event := stop_event g;
     active_threads := l;
     cookies := cookies g |}.

Definition set_cookies (c : option (gmap string string)) (g : GlobalState) : GlobalState :=
  {| task_status := task_status g;
     progress := progress g;
     stop_event := stop_event g;
     active_threads := active_threads g;
     cookies := c |}.

(** ** Cookie text *)

(** [s.split(sep)] for a one-character separator. *)
Fixpoint split (sep : ascii) (s : string) : list string :=
  match s with
  | EmptyString => [EmptyString]
  | String c s' =>
      if Ascii.eqb c sep then EmptyString :: split sep s'
      else match split sep s' with
           | h :: t => String c h :: t
           | [] => [String c EmptyString]
           end
  end.

(** [s.split(sep, 1)]: at most one cut, at the first separator. *)
Fixpoint split_once (sep : ascii) (s : string) : list string :=
  match s with
  | EmptyString => [EmptyString]
  | String c s' =>
      if Ascii.eqb c sep then [EmptyString; s']
      else match split_once sep s' with
           | h :: t => String c h :: t
           | [] => [String c EmptyString]
           end
  end.

(** Truth value of a [str]. *)
Definition nonempty (s : string) : bool :=
  match s with
  | EmptyString => false
  | String _ _ => true
  end.

(** [dict(seq)] over a sequence of lists: each element must have length
    2, a later key overwrites an earlier one, and the first element of
    another length raises. *)
Fixpoint dict_update (seq : list (list string)) (index : nat)
    (acc : gmap string string) : Result (gmap string string) :=
  match seq with
  | [] => Ok acc
  | [k; v] :: rest => dict_update rest (S index) (<[k := v]> acc)
  | _ :: _ => Raise (ValueError_dict_update index)
  end.

(** [dict(map(lambda x: x.split("=", 1), filter(None, cookies.split(";"))))]. *)
Definition cookie_dict (text : string) : Result (gmap string string) :=
  dict_update
    (map (split_once "=") (filter (λ x, nonempty x = true) (split ";" text)))
    0%nat ∅.

(** Truth value of [state.cookies]: [None] and the empty dict are falsy. *)
Definition truthy (c : option (gmap string string)) : bool :=
  match c with
  | None => false
  | Some d => negb (bool_decide (d = ∅))
  end.

(** ** Worker threads *)

(** [random.randint(a, b)]: some integer of [a..b], chosen by the entropy
    the scheduler supplies; an empty range raises. *)
Definition randint (a b : Z) (entropy : nat) : Result Z :=
  if b <? a then Raise ValueError_randint
  else Ok (a + Z.of_nat entropy mod (b - a + 1)).

(** [random.randint( *duration)]: the tuple is unpacked into the two
    arguments. *)
Definition randint_star (duration : list Z) (entropy : nat) : Result Z :=
  match duration with
  | [a; b] => randint a b entropy
  | _ => Raise TypeError_randint
  end.

(** The loop header of [run], evaluated once: the first index, the
    exclusive bound of the [range] and the [total] reported.
    [BrainBurstThread] iterates [range(1, 101)] with total 100;
    [AwayFromKeyboardThread] computes
    [total = randint( *duration) if isinstance(duration, tuple) else duration]
    and iterates [range(total)]. *)
Definition loop_header (t : Thread) (entropy : nat) : Result (Z * Z * Z) :=
  match kind t with
  | BrainBurst => Ok (1, 101, 100)
  | AwayFromKeyboard =>
      match param t with
      | PyTuple items =>
          match randint_star items entropy with
          | Ok n => Ok (0, n, n)
          | Raise e => Raise e
          end
      | PyInt n => Ok (0, n, n)
      | PyList _ | PyOther => Raise TypeError_range
      end
  end.

(** The status a thread writes as its first statement. *)
Definition running (k : TaskKind) : TaskStatusType :=
  match k with
  | BrainBurst => brain_burst
  | AwayFromKeyboard => away_from_keyboard
  end.

(** [time.sleep(0.1)] and [time.sleep(1)], in milliseconds. *)
Definition sleep_millis (k : TaskKind) : Z :=
  match k with
  | BrainBurst => 100
  | AwayFromKeyboard => 1000
  end.

Definition with_pc (p : Pc) (t : Thread) : Thread :=
  {| kind := kind t; unit_idx := unit_idx t; param := param t; pc := p |}.

Definition set_pc (tid : nat) (p : Pc) (sys : System) : System :=
  {| state := state sys;
     threads := alter (with_pc p) tid (threads sys);
     client_cookies := client_cookies sys |}.

(** One statement of thread [tid].  A thread that does not exist or has
    returned does nothing. *)
Definition worker_step (tid entropy : nat) (sys : System) : System * list Event :=
  match threads sys !! tid with
  | None => (sys, [])
  | Some t =>
      match pc t with
      | Spawned =>
          (set_pc tid Resolve (with_state (set_status (running (kind t))) sys), [])
      | Resolve =>
          match loop_header t entropy with
          | Ok (lo, hi, n) => (set_pc tid (Check lo hi n) sys, [])
          | Raise _ => (set_pc tid Except sys, [])
          end
      | Check i hi n =>
          if hi <=? i then (set_pc tid Finish sys, [])
          else if stop_event (state sys) then (set_pc tid Finish sys, [])
          else (set_pc tid (Write i hi n) sys, [])
      | Write i hi n =>
          (set_pc tid (Sleep i hi n) (with_state (set_progress (mkProgress i n)) sys),
           [EProgress tid (mkProgress i n)])
      | Sleep i hi n =>
          (set_pc tid (Check (i + 1) hi n) sys, [ESleep tid (sleep_millis (kind t))])
      | Finish =>
          (set_pc tid Done (with_state (set_status completed) sys), [])
      | Except =>
          (set_pc tid Done (with_state (set_status error) sys), [])
      | Done => (sys, [])
      end
  end.

(** A schedule of worker statements, each with the thread that runs and
    the entropy it may consume. *)
Fixpoint run_workers (sched : list (nat * nat)) (sys : System) : System * list Event :=
  match sched with
  | [] => (sys, [])
  | (tid, entropy) :: rest =>
      let '(sys1, tr1) := worker_step tid entropy sys in
      let '(sys2, tr2) := run_workers rest sys1 in
      (sys2, tr1 ++ tr2)
  end.

(** [t.is_alive()] for a pool entry: started and not yet returned. *)
Definition is_alive (t : Thread) : bool :=
  bool_decide (pc t ≠ Done).

Definition alive_threads (sys : System) : list Thread :=
  filter (λ t, is_alive t = true) (threads sys).

(** ** Handlers *)

Definition ok_response : Response := Json true (Literal EmptyString).

(** [api_login]: reset first, then parse, validate and store.  [text] is
    the cookie text of the request and [valid] the answer of
    [validate_cookies]; [get_user_info] and [log_message] only read. *)
Definition api_login (text : string) (valid : bool) (sys : System) : System * list Event :=
  let sys0 := with_state (λ _, reset) sys in
  match cookie_dict text with
  | Raise e => (sys0, [EResponse (Json false (StrOf e))])
  | Ok d =>
      if valid then
        ({| state := set_status idle (set_cookies (Some d) (state sys0));
            threads := threads sys0;
            client_cookies := d ∪ client_cookies sys0 |},
         [EConfig text; EResponse ok_response])
      else (sys0, [EResponse (Json false (Literal MSG_COOKIE_REJECTED))])
  end.

(** The guard shared by [get_courses] and [get_lessions]:
    [not state.cookies or state.task_status == "nologon"]. *)
Definition not_logged_in (g : GlobalState) : bool :=
  negb (truthy (cookies g)) || bool_decide (task_status g = nologon).

(** [get_courses]; [remote_ok] tells whether the remote query and its
    decoding went through. *)
Definition get_courses (remote_ok : bool) (sys : System) : Response :=
  if not_logged_in (state sys) then Json false (Literal MSG_PLEASE_LOGIN)
  else if remote_ok then ok_response
  else Json false (StrOf RemoteError).

(** [get_lessions]: same guard, two remote queries (what it stores in
    [_global] is not read by any modelled code). *)
Definition get_lessions (remote_ok : bool) (sys : System) : Response :=
  if not_logged_in (state sys) then Json false (Literal MSG_PLEASE_LOGIN)
  else if remote_ok then ok_response
  else Json false (StrOf RemoteError).

(** The thread class selected by [data["type"]]. *)
Definition kind_of_type (ty : string) : option TaskKind :=
  if String.eqb ty "brain_burst" then Some BrainBurst
  else if String.eqb ty "away_from_keyboard" then Some AwayFromKeyboard
  else None.

(** [start_task], for a request body that carries its three keys: the
    only test is [state.task_status != "idle"]; an accepted request
    constructs the thread, appends it to [state.active_threads] and starts
    it. *)
Definition start_task (ty : string) (unit_idx params : PyVal) (sys : System)
    : System * list Event :=
  if bool_decide (task_status (state sys) ≠ idle) then
    (sys, [EResponse (Json false (Literal MSG_BUSY))])
  else
    match kind_of_type ty with
    | Some k =>
        ({| state := set_active_threads
                       (active_threads (state sys) ++ [length (threads sys)])
                       (state sys);
            threads := threads sys ++ [mkThread k unit_idx params Spawned];
            client_cookies := client_cookies sys |},
         [EResponse ok_response])
    | None => (sys, [EResponse (Json false (Literal MSG_UNKNOWN_TYPE))])
    end.

(** Whether pool entry [tid] has returned from [run]. *)
Definition finished (tid : nat) (sys : System) : bool :=
  match threads sys !! tid with
  | Some t => negb (is_alive t)
  | None => false
  end.

(** [for t in state.active_threads: t.join(timeout=5)].  While the
    handler waits in a join the workers run; [during] gives, join by
    join, the worker statements executed before that join returns. *)
Fixpoint join_all (ts : list nat) (during : list (list (nat * nat))) (sys : System)
    : System * list Event :=
  match ts with
  | [] => (sys, [])
  | t :: ts' =>
      let '(sys1, tr1) := run_workers (hd [] during) sys in
      let '(sys2, tr2) := join_all ts' (tl during) sys1 in
      (sys2, tr1 ++ EJoin t 5 (finished t sys1) :: tr2)
  end.

(** [stop_tasks]: set the event, join every registered thread, reset. *)
Definition stop_tasks (during : list (list (nat * nat))) (sys : System)
    : System * list Event :=
  let sys1 := with_state (set_stop_event true) sys in
  let '(sys2, tr) := join_all (active_threads (state sys1)) during sys1 in
  (with_state (λ _, reset) sys2, tr ++ [EResponse ok_response]).

(** [get_status]. *)
Definition get_status (sys : System) : Response :=
  StatusJson (task_status (state sys)) (progress (state sys))
             (length (active_threads (state sys))).

(** ** Executions *)

Inductive Label :=
| ApiLogin (text : string) (valid : bool)
| GetCourses (remote_ok : bool)
| GetLessions (remote_ok : bool)
| StartTask (ty : string) (unit_idx params : PyVal)
| StopTasks (during : list (list (nat * nat)))
| GetStatus
| WorkerStep (tid entropy : nat).

Definition exec (l : Label) (sys : System) : System * list Event :=
  match l with
  | ApiLogin text valid => api_login text valid sys
  | GetCourses remote_ok => (sys, [EResponse (get_courses remote_ok sys)])
  | GetLessions remote_ok => (sys, [EResponse (get_lessions remote_ok sys)])
  | StartTask ty u p => start_task ty u p sys
  | StopTasks during => stop_tasks during sys
  | GetStatus => (sys, [EResponse (get_status sys)])
  | WorkerStep tid entropy => worker_step tid entropy sys
  end.

Fixpoint run (ls : list Label) (sys : System) : System * list Event :=
  match ls with
  | [] => (sys, [])
  | l :: rest =>
      let '(sys1, tr1) := exec l sys in
      let '(sys2, tr2) := run rest sys1 in
      (sys2, tr1 ++ tr2)
  end.

(** States the process can be in between two steps. *)
Definition reachable (sys : System) : Prop :=
  ∃ ls, (run ls init).1 = sys.

(** Observations on traces. *)
Definition responses (tr : list Event) : list Response :=
  omap (λ e, match e with EResponse r => Some r | _ => None end) tr.

Definition joins (tr : list Event) : list (nat * Z) :=
  omap (λ e, match e with EJoin t d _ => Some (t, d) | _ => None end) tr.

Definition config_writes (tr : list Event) : list string :=
  omap (λ e, match e with EConfig s => Some s | _ => None end) tr.

Definition writes_of (tid : nat) (tr : list Event) : list ProgressInfo :=
  omap (λ e, match e with
             | EProgress t p => if bool_decide (t = tid) then Some p else None
             | _ => None
             end) tr.

Definition sleeps_of (tid : nat) (tr : list Event) : list Z :=
  omap (λ e, match e with
             | ESleep t d => if bool_decide (t = tid) then Some d else None
             | _ => None
             end) tr.

(** * Predicates and scenarios used by the statements

    From here on nothing is part of the program: these are the
    predicates the theorems are stated with and the concrete runs they
    are evaluated on. *)

(** ** What worker statements leave alone *)

(** A worker only ever assigns [state.task_status] and [state.progress]
    and moves its own position. *)
Definition worker_frame (sys sys' : System) : Prop :=
  stop_event (state sys') = stop_event (state sys) ∧
  active_threads (state sys') = active_threads (state sys) ∧
  cookies (state sys') = cookies (state sys) ∧
  client_cookies sys' = client_cookies sys ∧
  length (threads sys') = length (threads sys).

Definition worker_event (e : Event) : Prop :=
  match e with
  | EProgress _ _ | ESleep _ _ => True
  | _ => False
  end.

(** ** The session predicate of the spec *)

(** [isAuthenticated]: credentials are set and the status is not
    [nologon]; the negation of the handlers' guard. *)
Definition is_authenticated (g : GlobalState) : bool :=
  negb (not_logged_in g).

(** The state after a first successful login. *)
Definition logged_in : System :=
  (run [ApiLogin "k=v" true] init).1.

(** A login that gets past both the parser and the remote check. *)
Definition successful_login (l : Label) : bool :=
  match l with
  | ApiLogin text valid =>
      valid && match cookie_dict text with Ok _ => true | Raise _ => false end
  | _ => false
  end.

(** ** Runs used as concrete inputs *)

(** A state with a task under way: logged in, one thread started and past
    its first statement. *)
Definition one_running : System :=
  (run [StartTask "brain_burst" (PyInt 0) (PyInt 1); WorkerStep 0 0] logged_in).1.

(** A run that leaves the status [idle] while a thread registered before
    the latest login is still writing progress: login, start, four
    statements of the worker (the last one writes (1,100)), a second
    login, three more statements (the last one writes (2,100)). *)
Definition idle_with_progress : System :=
  (run ([ApiLogin "k=v" true; StartTask "brain_burst" (PyInt 0) (PyInt 1)]
          ++ replicate 4 (WorkerStep 0 0)
          ++ [ApiLogin "k=v" true]
          ++ replicate 3 (WorkerStep 0 0)) init).1.

(** ** One thread's view of a worker statement *)

(** The position a thread moves to, given the entropy it draws and the
    value [stop_event.is_set()] returns. *)
Definition next_pc (entropy : nat) (stop : bool) (t : Thread) : Pc :=
  match pc t with
  | Spawned => Resolve
  | Resolve =>
      match loop_header t entropy with
      | Ok (lo, hi, n) => Check lo hi n
      | Raise _ => Except
      end
  | Check i hi n => if hi <=? i then Finish else if stop then Finish else Write i hi n
  | Write i hi n => Sleep i hi n
  | Sleep i hi n => Check (i + 1) hi n
  | Finish | Except | Done => Done
  end.

(** The assignment to [state] the statement performs. *)
Definition next_state (t : Thread) (g : GlobalState) : GlobalState :=
  match pc t with
  | Spawned => set_status (running (kind t)) g
  | Write i _ n => set_progress (mkProgress i n) g
  | Finish => set_status completed g
  | Except => set_status error g
  | _ => g
  end.

Definition step_events (tid : nat) (t : Thread) : list Event :=
  match pc t with
  | Write i _ n => [EProgress tid (mkProgress i n)]
  | Sleep _ _ _ => [ESleep tid (sleep_millis (kind t))]
  | _ => []
  end.


(** ** Progress written by one thread *)






(** ** A worker running on its own *)

(** [n] consecutive statements of one thread, on that thread and the
    shared state only. *)
Fixpoint local_run (n : nat) (tid entropy : nat) (t : Thread) (g : GlobalState)
    : Thread * GlobalState * list Event :=
  match n with
  | O => (t, g, [])
  | S n' =>
      let '(t', g', tr) :=
        local_run n' tid entropy
                  (with_pc (next_pc entropy (stop_event g) t) t) (next_state t g) in
      (t', g', step_events tid t ++ tr)
  end.

(** ** Cancellation seen by a worker *)

(** Whether the body of [run] raises before it reaches its loop: the
    thread is already in its handler, or its loop header cannot be
    evaluated. *)
Definition body_fails (t : Thread) (entropy : nat) : bool :=
  match pc t with
  | Except => true
  | Spawned | Resolve =>
      match loop_header t entropy with
      | Raise _ => true
      | Ok _ => false
      end
  | _ => false
  end.

(** A duration task whose parameter arrived as a JSON array, started
    right after login. *)
Definition started_with_list : System :=
  (start_task "away_from_keyboard" (PyInt 0) (PyList [2; 2]) logged_in).1.

(** A brain-burst worker asleep after its first write, and the same state
    once [stop_tasks] has set the signal. *)
Definition sleeping : System :=
  (run (StartTask "brain_burst" (PyInt 0) (PyInt 1) :: replicate 4 (WorkerStep 0 0))
       logged_in).1.

Definition sleeping_signalled : System :=
  with_state (set_stop_event true) sleeping.

(** ** Two start requests *)

(** Login, two start requests back to back, then the two threads taking
    turns for four statements each. *)
Definition two_starts : list Label :=
  [ApiLogin "k=v" true;
   StartTask "brain_burst" (PyInt 0) (PyInt 1);
   StartTask "away_from_keyboard" (PyInt 0) (PyInt 30);
   WorkerStep 0 0; WorkerStep 1 0; WorkerStep 0 0; WorkerStep 1 0;
   WorkerStep 0 0; WorkerStep 1 0; WorkerStep 0 0; WorkerStep 1 0].

(** Login, a start, the worker up to its first sleep, a second login, a
    second start, and four statements of the second worker. *)
Definition relogin_and_start : list Label :=
  [ApiLogin "k=v" true; StartTask "brain_burst" (PyInt 0) (PyInt 1)]
    ++ replicate 4 (WorkerStep 0 0)
    ++ [ApiLogin "k=v" true; StartTask "away_from_keyboard" (PyInt 0) (PyInt 30)]
    ++ replicate 4 (WorkerStep 1 0).

(** ** The duration worker on the range (2,2) *)

Definition afk_pair : Thread :=
  mkThread AwayFromKeyboard (PyInt 0) (PyTuple [2; 2]) Spawned.

(** [AwayFromKeyboardThread(0, (2, 2)).start()] in a logged-in process. *)
Definition afk_pair_started : System :=
  {| state := state logged_in;
     threads := [afk_pair];
     client_cookies := client_cookies logged_in |}.

(** ** After a worker has returned by itself *)

Definition terminal (st : TaskStatusType) : bool :=
  match st with
  | completed | error => true
  | _ => false
  end.

(** The steps other than [api_login] and [stop_tasks], the two callers of
    [reset]. *)
Definition keeps_registration (l : Label) : bool :=
  match l with
  | ApiLogin _ _ | StopTasks _ => false
  | _ => true
  end.

Definition all_returned (sys : System) : Prop :=
  ∀ tid t, threads sys !! tid = Some t → pc t = Done.

(** A brain-burst worker about to execute its last statement: started
    after login and run through all hundred iterations. *)
Definition about_to_return : System :=
  (run (StartTask "brain_burst" (PyInt 0) (PyInt 1) :: replicate 303 (WorkerStep 0 0))
       logged_in).1.

(** ** Statements left to a signalled worker *)

(** An upper bound on the statements a thread at position [p] still
    executes once the stop signal is set: the next loop test it reaches
    sees the signal and leaves the loop. *)
Definition statements_left (p : Pc) : nat :=
  match p with
  | Spawned | Write _ _ _ => 4
  | Resolve | Sleep _ _ _ => 3
  | Check _ _ _ => 2
  | Finish | Except => 1
  | Done => 0
  end.

(** The number of statements of thread [tid] in a schedule. *)
Definition statements_of (tid : nat) (sched : list (nat * nat)) : nat :=
  length (filter (λ s, s.1 = tid) sched).

(** ** Runs in which a returned worker is not counted once *)

(** The statuses a worker writes. *)
Definition running_or_terminal (st : TaskStatusType) : Prop :=
  st = brain_burst ∨ st = away_from_keyboard ∨ st = completed ∨ st = error.

(** Login, a start, five statements of the worker, a second login, and
    the worker again up to its last statement. *)
Definition relogin_before_return : System :=
  (run ([ApiLogin "k=v" true; StartTask "brain_burst" (PyInt 0) (PyInt 1)]
          ++ replicate 5 (WorkerStep 0 0)
          ++ [ApiLogin "k=v" true]
          ++ replicate 298 (WorkerStep 0 0)) init).1.

(** Login, two starts back to back, the first worker to its return and
    the second up to its last statement. *)
Definition race_before_return : System :=
  (run ([ApiLogin "k=v" true;
         StartTask "brain_burst" (PyInt 0) (PyInt 1);
         StartTask "away_from_keyboard" (PyInt 0) (PyInt 1)]
          ++ replicate 304 (WorkerStep 0 0)
          ++ replicate 6 (WorkerStep 1 0)) init).1.

(** * Further functions and predicates

    ** Cookie text: membership and rendering *)

(** [c in s] for a one-character string [c]. *)
Fixpoint has_char (c : ascii) (s : string) : bool :=
  match s with
  | EmptyString => false
  | String a s' => Ascii.eqb a c || has_char c s'
  end.

(** [key + "=" + value]. *)
Definition render_pair (kv : string * string) : string :=
  kv.1 +:+ "=" +:+ kv.2.

(** [";".join(key + "=" + value for key, value in kvs)]: the cookie text
    for an ordered list of pairs. *)
Definition render_cookies (kvs : list (string * string)) : string :=
  String.concat ";" (map render_pair kvs).

(** ["; ".join(...)]: the same pairs as a browser prints a Cookie header,
    with a space after each semicolon. *)
Definition render_header (kvs : list (string * string)) : string :=
  String.concat "; " (map render_pair kvs).

(** [dict(kvs)] for a list of pairs: a later pair overwrites an earlier
    one with the same key. *)
Definition dict_of_pairs (kvs : list (string * string)) : gmap string string :=
  foldl (λ m kv, <[kv.1 := kv.2]> m) ∅ kvs.

(** A pair that survives the two splits: no [;] in it and no [=] in its
    key. *)
Definition cookie_safe (kv : string * string) : Prop :=
  has_char ";" kv.1 = false ∧ has_char "=" kv.1 = false ∧ has_char ";" kv.2 = false.

(** The non-empty segments of a cookie text, as [api_login] filters
    them. *)
Definition segments (text : string) : list string :=
  filter (λ x, nonempty x = true) (split ";" text).

(** ** Start-up: the [__main__] block *)

(** What [open("config.json")], [json.load] and [config.get("cookies")]
    produce.  [ConfigCookies (Some text)] is an object whose key holds
    the string [text].  [ConfigCookies None] is an object whose key is
    absent or holds a value that is not a string and is falsy (null, 0,
    false, an empty array or object): the test of the [if] fails as it
    does for the empty string, and nothing is logged.  [BrokenConfig] is
    every case in which an exception other than [FileNotFoundError]
    reaches the last handler before the parser runs: [open] fails for
    another reason, [json.load] raises, the content has no [get] (an
    array, a number, a string, null), or the key holds a truthy value
    without [split] (a non-zero number, true, a non-empty array or
    object). *)
Inductive ConfigFile :=
| NoConfigFile                           (* open raises FileNotFoundError *)
| BrokenConfig                           (* anything else raises before the parser runs *)
| ConfigCookies (text : option string).  (* an object; config.get("cookies") *)

(** The messages the block hands to [log_message]. *)
Inductive StartupLog :=
| LogConfigLoaded                        (* "配置加载成功，正在尝试自动登录……" *)
| LogAutoLoginOk                         (* "自动登录成功" *)
| LogAutoLoginRejected                   (* "自动登录失败，请更新 Cookie" *)
| LogNoConfigFile                        (* "未找到配置文件" *)
| LogConfigFailed (e : option PyExc).    (* "配置加载失败: " followed by str(e) *)

(** [dict(map(lambda x: x.split("=", 1), cookies_str.split(";")))]: the
    start-up parser; unlike [api_login] it does not filter the segments. *)
Definition startup_cookie_dict (text : string) : Result (gmap string string) :=
  dict_update (map (split_once "=") (split ";" text)) 0%nat ∅.

(** The [try] block of [__main__]: read the config, parse, validate,
    store.  Nothing is reset and nothing is written back. *)
Definition autologin (cfg : ConfigFile) (valid : bool) (sys : System)
    : System * list StartupLog :=
  match cfg with
  | NoConfigFile => (sys, [LogNoConfigFile])
  | BrokenConfig => (sys, [LogConfigFailed None])
  | ConfigCookies None => (sys, [])
  | ConfigCookies (Some text) =>
      if nonempty text then
        match startup_cookie_dict text with
        | Raise e => (sys, [LogConfigFailed (Some e)])
        | Ok d =>
            if valid then
              ({| state := set_status idle (set_cookies (Some d) (state sys));
                  threads := threads sys;
                  client_cookies := d ∪ client_cookies sys |},
               [LogConfigLoaded; LogAutoLoginOk])
            else (sys, [LogConfigLoaded; LogAutoLoginRejected])
        end
      else (sys, [])
  end.

(** ** start_task on the request body *)

(** A JSON value as [request.json] decodes it.  [JOther] stands for null,
    floats, objects and arrays holding anything but integers; for the
    code modelled here they all behave like a value [range] rejects. *)
Inductive JVal :=
| JStr (s : string)
| JNum (n : Z)
| JBool (b : bool)
| JArr (items : list Z)
| JOther.

(** The Python value a decoded JSON value is: a number is an [int], a
    boolean is an [int] too (0 or 1), an array is a [list], never a
    [tuple]. *)
Definition py_of_json (j : JVal) : PyVal :=
  match j with
  | JNum n => PyInt n
  | JBool b => PyInt (if b then 1 else 0)
  | JArr items => PyList items
  | JStr _ | JOther => PyOther
  end.

(** [str(KeyError(key))]: the key in single quotes. *)
Definition key_error (key : string) : Response :=
  Json false (Literal ("'" +:+ key +:+ "'")).

(** [start_task] for a body that is a JSON object: the status test comes
    first, then [data["type"]], [data["unitIndex"]] and [data["params"]]
    are read in that order (a missing key raises [KeyError], which the
    handler turns into a reply), then the type is compared with the two
    known names. *)
Definition start_task_json (data : gmap string JVal) (sys : System)
    : System * list Event :=
  if bool_decide (task_status (state sys) ≠ idle) then
    (sys, [EResponse (Json false (Literal MSG_BUSY))])
  else
    match data !! "type" with
    | None => (sys, [EResponse (key_error "type")])
    | Some ty =>
        match data !! "unitIndex" with
        | None => (sys, [EResponse (key_error "unitIndex")])
        | Some u =>
            match data !! "params" with
            | None => (sys, [EResponse (key_error "params")])
            | Some p =>
                match ty with
                | JStr s => start_task s (py_of_json u) (py_of_json p) sys
                | _ => (sys, [EResponse (Json false (Literal MSG_UNKNOWN_TYPE))])
                end
            end
        end
    end.

(** ** Durations that cannot be resolved *)

(** The durations for which the loop header of [AwayFromKeyboardThread]
    raises: anything but an int or a pair [(a, b)] with [a ≤ b]. *)
Definition bad_duration (p : PyVal) : Prop :=
  match p with
  | PyInt _ => False
  | PyTuple [a; b] => b < a
  | _ => True
  end.

(** A JSON value that is neither a number nor a boolean. *)
Definition not_a_number (j : JVal) : Prop :=
  match j with
  | JNum _ | JBool _ => False
  | _ => True
  end.

(** ** Statuses and workers *)

(** The statuses a worker never writes. *)
Definition kept_by_workers (st : TaskStatusType) : Prop :=
  st = idle ∨ st = nologon.

(** ** The in-memory log: [log_message], [LogCapture] and the buffer that
    [reset] replaces *)

Module Logging.

(** The part of the process the logging code touches: the [StringIO]
    objects by allocation order, the one [state.log_buffer] refers to,
    the objects [sys.stdout] and [sys.stderr] refer to ([None] for the
    stream the process started with), and the entries handed to the file
    handler and to the console handler, which was bound to the original
    stderr at import time. *)
Record LogState := mkLog {
  buffers : list string;
  log_buffer : nat;
  stdout : option nat;
  stderr : option nat;
  logger : list string
}.

(** [buf.write(text)] on the [StringIO] with index [b]. *)
Definition write (b : nat) (text : string) (s : LogState) : LogState :=
  {| buffers := alter (λ old, old +:+ text) b (buffers s);
     log_buffer := log_buffer s;
     stdout := stdout s;
     stderr := stderr s;
     logger := logger s |}.

(** A write to a stream: into the buffer it refers to, if any. *)
Definition write_stream (stream : option nat) (text : string) (s : LogState)
    : LogState :=
  match stream with
  | Some b => write b text s
  | None => s
  end.

(** The line [self.log_buffer = StringIO()] of [GlobalState.reset]. *)
Definition reset_log (s : LogState) : LogState :=
  {| buffers := buffers s ++ [EmptyString];
     log_buffer := length (buffers s);
     stdout := stdout s;
     stderr := stderr s;
     logger := logger s |}.

Definition newline : string := String (ascii_of_nat 10) EmptyString.

(** [f"[{timestamp}] [{log_type}] {message}"]; [timestamp] is what
    [time.strftime] returned. *)
Definition log_entry (timestamp log_type message : string) : string :=
  "[" +:+ timestamp +:+ "] [" +:+ log_type +:+ "] " +:+ message.

(** [log_message]: the entry and a newline go to [state.log_buffer];
    then [app.logger.info(entry)] runs the logger's handlers.  The
    handler Flask attached when [app.logger] was first used writes the
    record, as its own formatter renders it ([formatted], terminator
    included), to whatever [sys.stderr] is at that moment; the file and
    console handlers receive the entry. *)
Definition log_message (timestamp message log_type formatted : string)
    (s : LogState) : LogState :=
  let s1 := write (log_buffer s) (log_entry timestamp log_type message +:+ newline) s in
  let s2 := write_stream (stderr s1) formatted s1 in
  {| buffers := buffers s2;
     log_buffer := log_buffer s2;
     stdout := stdout s2;
     stderr := stderr s2;
     logger := logger s2 ++ [log_entry timestamp log_type message] |}.

(** [print(text)]: the text and a newline go to whatever [sys.stdout]
    is at that moment. *)
Definition print (text : string) (s : LogState) : LogState :=
  write_stream (stdout s) (text +:+ newline) s.

(** A [LogCapture] object. *)
Record LogCapture := mkCapture {
  buffer : nat;
  original_stdout : option nat;
  original_stderr : option nat
}.

(** [LogCapture(buffer)]: the streams are read at construction. *)
Definition capture (b : nat) (s : LogState) : LogCapture :=
  {| buffer := b; original_stdout := stdout s; original_stderr := stderr s |}.

Definition enter (c : LogCapture) (s : LogState) : LogState :=
  {| buffers := buffers s;
     log_buffer := log_buffer s;
     stdout := Some (buffer c);
     stderr := Some (buffer c);
     logger := logger s |}.

Definition exit (c : LogCapture) (s : LogState) : LogState :=
  {| buffers := buffers s;
     log_buffer := log_buffer s;
     stdout := original_stdout c;
     stderr := original_stderr c;
     logger := logger s |}.

(** What happens inside [with LogCapture(state.log_buffer)] while the
    application serves requests. *)
Inductive Op :=
| Reset                                    (* a handler calls state.reset() *)
| LogMessage (timestamp message log_type formatted : string)
| Print (text : string)
| OutWrite (text : string)                 (* any other write to sys.stdout *)
| ErrWrite (text : string).                (* any other write to sys.stderr: a traceback, a line of the server's own log *)

Definition step (o : Op) (s : LogState) : LogState :=
  match o with
  | Reset => reset_log s
  | LogMessage ts msg ty formatted => log_message ts msg ty formatted s
  | Print text => print text s
  | OutWrite text => write_stream (stdout s) text s
  | ErrWrite text => write_stream (stderr s) text s
  end.

Definition run (ops : list Op) (s : LogState) : LogState :=
  foldl (λ s o, step o s) s ops.

(** [state = GlobalState()] at import time. *)
Definition start : LogState :=
  {| buffers := [EmptyString]; log_buffer := 0; stdout := None; stderr := None;
     logger := [] |}.

(** The process once [__main__] has entered
    [with LogCapture(state.log_buffer)]; [before] is what happened while
    the config was loaded. *)
Definition serving (before : list Op) : LogState :=
  let s := run before start in
  enter (capture (log_buffer s) s) s.

(** The text the log messages of [ops] add to [state.log_buffer]. *)
Definition logged (ops : list Op) : string :=
  foldr (λ o rest,
           match o with
           | LogMessage ts msg ty _ => log_entry ts ty msg +:+ newline +:+ rest
           | _ => rest
           end) EmptyString ops.

(** The text [ops] add to a buffer that both [sys.stdout] and
    [sys.stderr] refer to. *)
Definition captured (ops : list Op) : string :=
  foldr (λ o rest,
           match o with
           | LogMessage _ _ _ formatted => formatted +:+ rest
           | Print text => text +:+ newline +:+ rest
           | OutWrite text | ErrWrite text => text +:+ rest
           | Reset => rest
           end) EmptyString ops.

Definition is_reset (o : Op) : bool :=
  match o with
  | Reset => true
  | _ => false
  end.

(** The content of the buffer [state.log_buffer] refers to. *)
Definition content (s : LogState) : option string :=
  buffers s !! log_buffer s.

(** After a reset inside the capture: [state.log_buffer] is buffer [l]
    and holds [new]; both streams are buffer [b], which holds [old]. *)
Definition diverged (l b : nat) (new old : string) (s : LogState) : Prop :=
  log_buffer s = l ∧ stdout s = Some b ∧ stderr s = Some b ∧ b ≠ l ∧
  buffers s !! l = Some new ∧ buffers s !! b = Some old.

End Logging.

(** * Properties

    ** Sanity checks on concrete inputs *)

Example cookie_dict_two :
  cookie_dict "a=1;b=2=3;" = Ok (<["b" := "2=3"]> (<["a" := "1"]> ∅)).
Proof. reflexivity. Qed.

Example cookie_dict_malformed :
  cookie_dict "a=1;junk" = Raise (ValueError_dict_update 1).
Proof. reflexivity. Qed.

Example cookie_dict_empty : cookie_dict EmptyString = Ok ∅.
Proof. reflexivity. Qed.

(** ** What worker statements leave alone *)

Lemma worker_frame_refl sys : worker_frame sys sys.
Proof. by repeat split. Qed.

Lemma worker_frame_trans a b c :
  worker_frame a b → worker_frame b c → worker_frame a c.
Proof.
  intros (?&?&?&?&?) (?&?&?&?&?). repeat split; congruence.
Qed.

Lemma set_pc_frame tid p sys : worker_frame sys (set_pc tid p sys).
Proof. repeat split. simpl. by rewrite length_alter. Qed.

Lemma worker_step_frame tid entropy sys :
  worker_frame sys (worker_step tid entropy sys).1.
Proof.
  unfold worker_step.
  destruct (threads sys !! tid) as [t|]; [|apply worker_frame_refl].
  destruct (pc t); simpl;
    repeat match goal with
           | |- context [match ?x with _ => _ end] => destruct x
           end;
    simpl; repeat split; simpl; by rewrite ?length_alter.
Qed.

Lemma worker_step_events tid entropy sys :
  Forall worker_event (worker_step tid entropy sys).2.
Proof.
  unfold worker_step.
  destruct (threads sys !! tid) as [t|]; [|constructor].
  destruct (pc t); simpl;
    repeat match goal with
           | |- context [match ?x with _ => _ end] => destruct x
           end;
    simpl; repeat constructor.
Qed.

Lemma run_workers_cons tid entropy rest sys :
  run_workers ((tid, entropy) :: rest) sys =
  ((run_workers rest (worker_step tid entropy sys).1).1,
   (worker_step tid entropy sys).2 ++ (run_workers rest (worker_step tid entropy sys).1).2).
Proof.
  simpl. destruct (worker_step tid entropy sys) as [s1 t1]. simpl.
  by destruct (run_workers rest s1).
Qed.

Lemma run_workers_frame sched sys :
  worker_frame sys (run_workers sched sys).1.
Proof.
  revert sys. induction sched as [|[tid e] rest IH]; intros sys.
  - apply worker_frame_refl.
  - rewrite run_workers_cons. simpl.
    eapply worker_frame_trans; [apply worker_step_frame | apply IH].
Qed.

Lemma run_workers_events sched sys :
  Forall worker_event (run_workers sched sys).2.
Proof.
  revert sys. induction sched as [|[tid e] rest IH]; intros sys.
  - constructor.
  - rewrite run_workers_cons. simpl.
    apply Forall_app. split; [apply worker_step_events | apply IH].
Qed.

Lemma worker_events_no_joins tr : Forall worker_event tr → joins tr = [].
Proof.
  induction 1 as [|e tr He _ IH]; [done|].
  destruct e; simpl in *; try done.
Qed.

Lemma worker_events_no_responses tr : Forall worker_event tr → responses tr = [].
Proof.
  induction 1 as [|e tr He _ IH]; [done|].
  destruct e; simpl in *; try done.
Qed.

Lemma worker_events_no_config tr : Forall worker_event tr → config_writes tr = [].
Proof.
  induction 1 as [|e tr He _ IH]; [done|].
  destruct e; simpl in *; try done.
Qed.

Lemma join_all_cons t ts during sys :
  join_all (t :: ts) during sys =
  let sys1 := (run_workers (hd [] during) sys).1 in
  ((join_all ts (tl during) sys1).1,
   (run_workers (hd [] during) sys).2
     ++ EJoin t 5 (finished t sys1) :: (join_all ts (tl during) sys1).2).
Proof.
  simpl. destruct (run_workers (hd [] during) sys) as [s1 t1]. simpl.
  by destruct (join_all ts (tl during) s1).
Qed.

Lemma join_all_frame ts during sys :
  worker_frame sys (join_all ts during sys).1.
Proof.
  revert during sys. induction ts as [|t ts IH]; intros during sys.
  - apply worker_frame_refl.
  - rewrite join_all_cons. simpl.
    eapply worker_frame_trans; [apply run_workers_frame | apply IH].
Qed.

Lemma join_all_joins ts during sys :
  joins (join_all ts during sys).2 = map (λ t, (t, 5)) ts.
Proof.
  revert during sys. induction ts as [|t ts IH]; intros during sys.
  - done.
  - rewrite join_all_cons. simpl. unfold joins at 1.
    rewrite omap_app. fold (joins (run_workers (hd [] during) sys).2).
    rewrite worker_events_no_joins by apply run_workers_events.
    simpl. f_equal. apply IH.
Qed.

Lemma join_all_responses ts during sys :
  responses (join_all ts during sys).2 = [].
Proof.
  revert during sys. induction ts as [|t ts IH]; intros during sys.
  - done.
  - rewrite join_all_cons. simpl. unfold responses at 1.
    rewrite omap_app. fold (responses (run_workers (hd [] during) sys).2).
    rewrite worker_events_no_responses by apply run_workers_events.
    simpl. apply IH.
Qed.

Lemma stop_tasks_unfold during sys :
  stop_tasks during sys =
  let joined := join_all (active_threads (state sys)) during
                         (with_state (set_stop_event true) sys) in
  (with_state (λ _, reset) joined.1, joined.2 ++ [EResponse ok_response]).
Proof.
  unfold stop_tasks. simpl.
  by destruct (join_all _ _ _).
Qed.

Example logged_in_authenticated :
  is_authenticated (state logged_in) = true ∧ task_status (state logged_in) = idle.
Proof. split; reflexivity. Qed.

(** ** stop_tasks (C2, C9) *)

(** C2, as the spec states it, fails: a stop issued in an authenticated,
    idle session does not leave the status idle. *)
Lemma stop_tasks_authenticated_not_idle :
  is_authenticated (state logged_in) = true ∧
  task_status (state (stop_tasks [] logged_in).1) ≠ idle.
Proof. split; [reflexivity | discriminate]. Qed.

Lemma run_cons l rest sys :
  run (l :: rest) sys =
  ((run rest (exec l sys).1).1, (exec l sys).2 ++ (run rest (exec l sys).1).2).
Proof.
  simpl. destruct (exec l sys) as [s1 t1]. simpl.
  by destruct (run rest s1).
Qed.

Lemma run_app ls1 ls2 sys :
  run (ls1 ++ ls2) sys =
  ((run ls2 (run ls1 sys).1).1, (run ls1 sys).2 ++ (run ls2 (run ls1 sys).1).2).
Proof.
  revert sys. induction ls1 as [|l ls1 IH]; intros sys.
  - simpl. by destruct (run ls2 sys).
  - rewrite <- app_comm_cons, !run_cons, IH. simpl. by rewrite app_assoc.
Qed.

Lemma exec_keeps_logged_out l sys :
  successful_login l = false →
  cookies (state sys) = None →
  cookies (state (exec l sys).1) = None.
Proof.
  intros Hl Hc. destruct l as [text valid| | |ty u p|during| |tid e]; simpl in *; try done.
  - unfold api_login. destruct (cookie_dict text); [|done].
    destruct valid; [done|done].
  - unfold start_task. case_bool_decide; [done|].
    by destruct (kind_of_type ty).
  - by rewrite stop_tasks_unfold.
  - destruct (worker_step_frame tid e sys) as (_&_&H&_). by rewrite H.
Qed.

Lemma run_keeps_logged_out ls sys :
  Forall (λ l, successful_login l = false) ls →
  cookies (state sys) = None →
  cookies (state (run ls sys).1) = None.
Proof.
  intros Hls. revert sys. induction Hls as [|l ls Hl _ IH]; intros sys Hc.
  - done.
  - rewrite run_cons. simpl. apply IH. by apply exec_keeps_logged_out.
Qed.

(** C9: every [stop_tasks] call, from any state and whatever the workers
    do meanwhile, clears [state.cookies] and sets the status to [nologon];
    from then on, as long as no login succeeds, [get_courses] and
    [get_lessions] answer with the please-login error. *)
Theorem stop_tasks_deauthenticates
    (during : list (list (nat * nat))) (sys : System)
    (ls : list Label) (remote_ok : bool) :
  Forall (λ l, successful_login l = false) ls →
  cookies (state (stop_tasks during sys).1) = None ∧
  task_status (state (stop_tasks during sys).1) = nologon ∧
  is_authenticated (state (stop_tasks during sys).1) = false ∧
  get_courses remote_ok (run ls (stop_tasks during sys).1).1
    = Json false (Literal MSG_PLEASE_LOGIN) ∧
  get_lessions remote_ok (run ls (stop_tasks during sys).1).1
    = Json false (Literal MSG_PLEASE_LOGIN).
Proof.
  intros Hls.
  assert (Hc : cookies (state (stop_tasks during sys).1) = None)
    by (by rewrite stop_tasks_unfold).
  assert (Hs : task_status (state (stop_tasks during sys).1) = nologon)
    by (by rewrite stop_tasks_unfold).
  pose proof (run_keeps_logged_out ls _ Hls Hc) as Hrun.
  split; [done|]. split; [done|].
  split; [unfold is_authenticated, not_logged_in; by rewrite Hc|].
  unfold get_courses, get_lessions, not_logged_in. by rewrite Hrun.
Qed.

(** C9 at a concrete run: stop with nothing running, then a rejected
    start, a rejected login and a status query. *)
Lemma stop_tasks_deauthenticates_witness :
  cookies (state (stop_tasks [] logged_in).1) = None ∧
  task_status (state (stop_tasks [] logged_in).1) = nologon ∧
  is_authenticated (state (stop_tasks [] logged_in).1) = false ∧
  get_courses true
    (run [StartTask "brain_burst" (PyInt 0) (PyInt 1); ApiLogin "k=v" false; GetStatus]
         (stop_tasks [] logged_in).1).1
    = Json false (Literal MSG_PLEASE_LOGIN) ∧
  get_lessions true
    (run [StartTask "brain_burst" (PyInt 0) (PyInt 1); ApiLogin "k=v" false; GetStatus]
         (stop_tasks [] logged_in).1).1
    = Json false (Literal MSG_PLEASE_LOGIN).
Proof.
  apply (stop_tasks_deauthenticates [] logged_in
           [StartTask "brain_burst" (PyInt 0) (PyInt 1); ApiLogin "k=v" false; GetStatus]
           true).
  repeat constructor.
Defined.

(** ** start_task while logged out (C4) *)

(** C4: in the initial, logged-out state a start request spawns nothing
    and leaves the status [nologon], but the reply it gets is the
    task-already-running message, the very reply given while a task runs;
    the sibling handler [get_courses] answers please-login in the same
    state. *)
Theorem start_task_logged_out_reports_busy :
  is_authenticated (state init) = false ∧
  start_task "brain_burst" (PyInt 0) (PyInt 1) init
    = (init, [EResponse (Json false (Literal MSG_BUSY))]) ∧
  task_status (state one_running) = brain_burst ∧
  (start_task "brain_burst" (PyInt 0) (PyInt 1) one_running).2
    = (start_task "brain_burst" (PyInt 0) (PyInt 1) init).2 ∧
  get_courses true init = Json false (Literal MSG_PLEASE_LOGIN) ∧
  MSG_BUSY ≠ MSG_PLEASE_LOGIN.
Proof. repeat split; try reflexivity. discriminate. Qed.

(** ** api_login (C5) *)

(** C5, as the spec states it, fails: a login with malformed text, or one
    the remote site rejects, returns an error and yet wipes the stored
    credentials and the status. *)
Lemma failed_login_resets_state :
  responses (api_login "junk" true logged_in).2
    = [Json false (StrOf (ValueError_dict_update 0))] ∧
  cookies (state (api_login "junk" true logged_in).1) ≠ cookies (state logged_in) ∧
  task_status (state (api_login "junk" true logged_in).1)
    ≠ task_status (state logged_in) ∧
  responses (api_login "k=v" false logged_in).2
    = [Json false (Literal MSG_COOKIE_REJECTED)] ∧
  cookies (state (api_login "k=v" false logged_in).1) ≠ cookies (state logged_in).
Proof. repeat split; try reflexivity; discriminate. Qed.

(** C5 (amended): every login resets the state first.  A login that fails
    (malformed text or rejected by the remote check) replies with an error,
    leaves the state as [reset] made it (no credentials, status [nologon],
    progress (0,0), no registered worker) and writes no config; a login
    that succeeds stores the parsed credentials, sets the status to [idle]
    and writes the config exactly once.  Neither touches the thread pool. *)
Theorem api_login_outcomes (text : string) (valid : bool) (sys : System) :
  threads (api_login text valid sys).1 = threads sys ∧
  progress (state (api_login text valid sys).1) = mkProgress 0 0 ∧
  active_threads (state (api_login text valid sys).1) = [] ∧
  if successful_login (ApiLogin text valid) then
    cookie_dict text = Ok (default ∅ (cookies (state (api_login text valid sys).1))) ∧
    is_Some (cookies (state (api_login text valid sys).1)) ∧
    task_status (state (api_login text valid sys).1) = idle ∧
    config_writes (api_login text valid sys).2 = [text] ∧
    responses (api_login text valid sys).2 = [ok_response]
  else
    state (api_login text valid sys).1 = reset ∧
    client_cookies (api_login text valid sys).1 = client_cookies sys ∧
    config_writes (api_login text valid sys).2 = [] ∧
    ∃ err, responses (api_login text valid sys).2 = [Json false err].
Proof.
  unfold successful_login, api_login.
  destruct (cookie_dict text) as [d|e]; [destruct valid|]; simpl.
  - repeat split; eauto.
  - repeat split; eauto.
  - rewrite andb_false_r. repeat split; eauto.
Qed.

(** ** start_task when accepted (C3) *)

Lemma exec_signal_clear l sys :
  stop_event (state sys) = false →
  stop_event (state (exec l sys).1) = false.
Proof.
  intros Hs. destruct l as [text valid| | |ty u p|during| |tid e]; simpl; try done.
  - unfold api_login. destruct (cookie_dict text); [|done]. by destruct valid.
  - unfold start_task. case_bool_decide; [done|]. by destruct (kind_of_type ty).
  - by rewrite stop_tasks_unfold.
  - destruct (worker_step_frame tid e sys) as (H&_). by rewrite H.
Qed.

Lemma run_signal_clear ls sys :
  stop_event (state sys) = false →
  stop_event (state (run ls sys).1) = false.
Proof.
  revert sys. induction ls as [|l ls IH]; intros sys Hs; [done|].
  rewrite run_cons. simpl. apply IH. by apply exec_signal_clear.
Qed.

(** Between two steps the cancellation signal is never set: only
    [stop_tasks] sets it, and it resets before it returns. *)
Lemma reachable_signal_clear sys :
  reachable sys → stop_event (state sys) = false.
Proof. intros [ls <-]. by apply run_signal_clear. Qed.

(** C3, as the spec states it, fails: an accepted start neither resets
    progress nor sets the status to running before it returns. *)
Lemma start_task_accepted_leaves_progress_and_status :
  is_authenticated (state idle_with_progress) = true ∧
  task_status (state idle_with_progress) = idle ∧
  responses (start_task "away_from_keyboard" (PyInt 0) (PyInt 3) idle_with_progress).2
    = [ok_response] ∧
  progress (state (start_task "away_from_keyboard" (PyInt 0) (PyInt 3)
                     idle_with_progress).1) ≠ mkProgress 0 0 ∧
  task_status (state (start_task "away_from_keyboard" (PyInt 0) (PyInt 3)
                        idle_with_progress).1) ≠ away_from_keyboard.
Proof. repeat split; try reflexivity; discriminate. Qed.

(** C3 (amended): an accepted start (reachable state, status [idle],
    known type) replies success, constructs exactly one thread of the
    requested class, not yet run, registers it in [active_threads], and
    leaves every other thread, the progress pair and the credentials as
    they were; the cancellation signal is clear on return; the status is
    written to running(kind) by the first statement of the new thread. *)
Theorem start_task_accepted
    (ty : string) (k : TaskKind) (u p : PyVal) (sys : System) :
  reachable sys →
  task_status (state sys) = idle →
  kind_of_type ty = Some k →
  (start_task ty u p sys).2 = [EResponse ok_response] ∧
  threads (start_task ty u p sys).1 = threads sys ++ [mkThread k u p Spawned] ∧
  active_threads (state (start_task ty u p sys).1)
    = active_threads (state sys) ++ [length (threads sys)] ∧
  progress (state (start_task ty u p sys).1) = progress (state sys) ∧
  cookies (state (start_task ty u p sys).1) = cookies (state sys) ∧
  stop_event (state (start_task ty u p sys).1) = false ∧
  ∀ entropy,
    task_status (state (worker_step (length (threads sys)) entropy
                          (start_task ty u p sys).1).1) = running k.
Proof.
  intros Hreach Hidle Hty. unfold start_task.
  rewrite Hidle, Hty. simpl.
  repeat (split; [done|]).
  split; [by apply reachable_signal_clear|].
  intros entropy. unfold worker_step. simpl.
  rewrite lookup_app_r by lia. rewrite Nat.sub_diag. done.
Qed.

(** C3 at a concrete request: a brain-burst task right after login. *)
Lemma start_task_accepted_witness :
  (start_task "brain_burst" (PyInt 0) (PyInt 1) logged_in).2 = [EResponse ok_response] ∧
  threads (start_task "brain_burst" (PyInt 0) (PyInt 1) logged_in).1
    = threads logged_in ++ [mkThread BrainBurst (PyInt 0) (PyInt 1) Spawned] ∧
  active_threads (state (start_task "brain_burst" (PyInt 0) (PyInt 1) logged_in).1)
    = active_threads (state logged_in) ++ [length (threads logged_in)] ∧
  progress (state (start_task "brain_burst" (PyInt 0) (PyInt 1) logged_in).1)
    = progress (state logged_in) ∧
  cookies (state (start_task "brain_burst" (PyInt 0) (PyInt 1) logged_in).1)
    = cookies (state logged_in) ∧
  stop_event (state (start_task "brain_burst" (PyInt 0) (PyInt 1) logged_in).1) = false ∧
  ∀ entropy,
    task_status (state (worker_step (length (threads logged_in)) entropy
                          (start_task "brain_burst" (PyInt 0) (PyInt 1) logged_in).1).1)
      = running BrainBurst.
Proof.
  apply (start_task_accepted "brain_burst" BrainBurst (PyInt 0) (PyInt 1) logged_in).
  - exists [ApiLogin "k=v" true]. reflexivity.
  - reflexivity.
  - reflexivity.
Defined.

(** ** One thread's view of a worker statement *)

Lemma with_pc_same t : with_pc (pc t) t = t.
Proof. by destruct t. Qed.

Lemma worker_step_self tid entropy sys t :
  threads sys !! tid = Some t →
  threads (worker_step tid entropy sys).1 !! tid
    = Some (with_pc (next_pc entropy (stop_event (state sys)) t) t) ∧
  state (worker_step tid entropy sys).1 = next_state t (state sys) ∧
  (worker_step tid entropy sys).2 = step_events tid t.
Proof.
  intros Ht. unfold worker_step, next_pc, next_state, step_events. rewrite Ht.
  destruct (pc t) eqn:Hpc; simpl;
    repeat match goal with
           | |- context [match ?x with _ => _ end] => destruct x
           end;
    simpl; rewrite ?list_lookup_alter_eq, ?Ht; simpl; try done.
  by rewrite <- Hpc, with_pc_same.
Qed.

Lemma worker_step_other tid tid' entropy sys :
  tid' ≠ tid →
  threads (worker_step tid' entropy sys).1 !! tid = threads sys !! tid ∧
  writes_of tid (worker_step tid' entropy sys).2 = [] ∧
  sleeps_of tid (worker_step tid' entropy sys).2 = [].
Proof.
  intros Hne. unfold worker_step.
  destruct (threads sys !! tid') as [t|]; [|done].
  destruct (pc t) as [| |i hi n|i hi n|i hi n| | |];
    [ | destruct (loop_header t entropy) as [[[lo hi] n]|]
      | destruct (hi <=? i); [|destruct (stop_event (state sys))]
      | .. ];
    repeat split;
    first [ done
          | simpl; by rewrite list_lookup_alter_ne by done
          | unfold writes_of, sleeps_of; cbn [omap list_omap snd];
            case_bool_decide; [congruence | done] ].
Qed.

(** ** Progress written by one thread (C7) *)


Lemma sleeps_of_app tid tr1 tr2 :
  sleeps_of tid (tr1 ++ tr2) = sleeps_of tid tr1 ++ sleeps_of tid tr2.
Proof. apply omap_app. Qed.












(** ** A worker running on its own *)

Lemma run_workers_alone n tid entropy sys t :
  threads sys !! tid = Some t →
  threads (run_workers (replicate n (tid, entropy)) sys).1 !! tid
    = Some (local_run n tid entropy t (state sys)).1.1 ∧
  state (run_workers (replicate n (tid, entropy)) sys).1
    = (local_run n tid entropy t (state sys)).1.2 ∧
  (run_workers (replicate n (tid, entropy)) sys).2
    = (local_run n tid entropy t (state sys)).2.
Proof.
  revert sys t. induction n as [|n IH]; intros sys t Ht; [done|].
  cbn [replicate]. rewrite run_workers_cons.
  destruct (worker_step_self tid entropy sys t Ht) as (Hth & Hst & Htr).
  destruct (IH _ _ Hth) as (IH1 & IH2 & IH3).
  cbn [local_run fst snd]. rewrite Hst in IH1, IH2, IH3.
  destruct (local_run n tid entropy _ _) as [[t' g'] tr'].
  cbn [fst snd] in *. by rewrite IH1, IH2, IH3, Htr.
Qed.

Lemma local_run_done n tid entropy t g :
  pc t = Done → local_run n tid entropy t g = (t, g, []).
Proof.
  revert t g. induction n as [|n IH]; intros t g Hpc; [done|].
  cbn [local_run]. unfold next_pc, next_state, step_events. rewrite Hpc.
  rewrite <- Hpc, with_pc_same, IH; done.
Qed.

Lemma worker_step_status tid entropy sys :
  task_status (state (worker_step tid entropy sys).1) = task_status (state sys) ∨
  task_status (state (worker_step tid entropy sys).1) = brain_burst ∨
  task_status (state (worker_step tid entropy sys).1) = away_from_keyboard ∨
  task_status (state (worker_step tid entropy sys).1) = completed ∨
  task_status (state (worker_step tid entropy sys).1) = error.
Proof.
  destruct (threads sys !! tid) as [t|] eqn:Ht.
  - destruct (worker_step_self tid entropy sys t Ht) as (_ & -> & _).
    unfold next_state. destruct (pc t); simpl; try tauto.
    destruct (kind t); simpl; tauto.
  - unfold worker_step. rewrite Ht. by left.
Qed.

(** ** stop_tasks while the workers run (C2) *)

Lemma statements_left_done p : statements_left p = 0%nat → p = Done.
Proof. by destruct p. Qed.

Lemma next_pc_signalled entropy t :
  (statements_left (next_pc entropy true t) ≤ pred (statements_left (pc t)))%nat.
Proof.
  unfold next_pc. destruct (pc t) as [| |i hi n|i hi n|i hi n| | |]; simpl; try lia.
  - destruct (loop_header t entropy) as [[[lo hi] n]|]; simpl; lia.
  - destruct (hi <=? i); simpl; lia.
Qed.

Lemma statements_of_app tid a b :
  statements_of tid (a ++ b) = (statements_of tid a + statements_of tid b)%nat.
Proof. unfold statements_of. by rewrite filter_app, length_app. Qed.

Lemma worker_step_finished tid tid' entropy sys :
  finished tid sys = true → finished tid (worker_step tid' entropy sys).1 = true.
Proof.
  unfold finished. destruct (threads sys !! tid) as [t|] eqn:Ht; [|done]. intros Hfin.
  destruct (decide (tid' = tid)) as [->|Hne].
  - unfold is_alive in Hfin.
    apply negb_true_iff, bool_decide_eq_false in Hfin. apply dec_stable in Hfin.
    unfold worker_step. rewrite Ht, Hfin. simpl. rewrite Ht.
    unfold is_alive. by rewrite Hfin.
  - destruct (worker_step_other tid tid' entropy sys Hne) as (-> & _). by rewrite Ht.
Qed.

Lemma run_workers_finished tid sched sys :
  finished tid sys = true → finished tid (run_workers sched sys).1 = true.
Proof.
  revert sys. induction sched as [|[tid' e] rest IH]; intros sys Hfin; [done|].
  rewrite run_workers_cons. simpl. by apply IH, worker_step_finished.
Qed.

Lemma join_all_finished tid ts during sys :
  finished tid sys = true → finished tid (join_all ts during sys).1 = true.
Proof.
  revert during sys. induction ts as [|t ts IH]; intros during sys Hfin; [done|].
  rewrite join_all_cons. simpl. by apply IH, run_workers_finished.
Qed.

(** With the signal set, every statement a thread executes brings it
    closer to its return, whatever the other threads do in between. *)
Lemma run_workers_signalled sched : ∀ sys tid t,
  stop_event (state sys) = true →
  threads sys !! tid = Some t →
  ∃ t', threads (run_workers sched sys).1 !! tid = Some t' ∧
        (statements_left (pc t') ≤ statements_left (pc t) - statements_of tid sched)%nat.
Proof.
  induction sched as [|[tid' e] rest IH]; intros sys tid t Hstop Ht.
  - exists t. split; [done|]. unfold statements_of. simpl. lia.
  - rewrite run_workers_cons. simpl.
    destruct (worker_step_frame tid' e sys) as (Hse & _).
    rewrite <- Hse in Hstop.
    destruct (decide (tid' = tid)) as [->|Hne].
    + destruct (worker_step_self tid e sys t Ht) as (Hth & _).
      rewrite <- Hse, Hstop in Hth.
      destruct (IH _ tid _ Hstop Hth) as (t' & Ht' & Hle).
      exists t'. split; [done|].
      pose proof (next_pc_signalled e t) as Hnext.
      unfold statements_of in *. rewrite filter_cons_True by done.
      simpl in *. lia.
    + destruct (worker_step_other tid tid' e sys Hne) as (Hsame & _).
      rewrite <- Hsame in Ht.
      destruct (IH _ tid _ Hstop Ht) as (t' & Ht' & Hle).
      exists t'. split; [done|].
      unfold statements_of in *. by rewrite filter_cons_False by done.
Qed.

Lemma run_workers_joined sched sys tid t :
  stop_event (state sys) = true →
  threads sys !! tid = Some t →
  (statements_left (pc t) ≤ statements_of tid sched)%nat →
  finished tid (run_workers sched sys).1 = true.
Proof.
  intros Hstop Ht Hle.
  destruct (run_workers_signalled sched sys tid t Hstop Ht) as (t' & Ht' & Hle').
  unfold finished, is_alive. rewrite Ht'.
  rewrite (statements_left_done (pc t')) by lia.
  apply negb_true_iff, bool_decide_eq_false. by intros H.
Qed.

Lemma join_all_signalled ts : ∀ during sys k tid t,
  stop_event (state sys) = true →
  ts !! k = Some tid →
  threads sys !! tid = Some t →
  (statements_left (pc t) ≤ statements_of tid (concat (take (S k) during)))%nat →
  EJoin tid 5 true ∈ (join_all ts during sys).2 ∧
  finished tid (join_all ts during sys).1 = true.
Proof.
  induction ts as [|t0 ts IH]; intros during sys k tid t Hstop Hk Ht Hle; [done|].
  rewrite join_all_cons. cbv zeta. simpl.
  destruct (run_workers_frame (hd [] during) sys) as (Hse & _).
  rewrite <- Hse in Hstop.
  destruct k as [|k].
  - injection Hk as ->.
    assert (Hfin : finished tid (run_workers (hd [] during) sys).1 = true).
    { rewrite Hse in Hstop. eapply run_workers_joined; [done..|].
      destruct during as [|d ds]; simpl in *; [done|]. by rewrite app_nil_r in Hle. }
    rewrite Hfin. split.
    + apply elem_of_app. right. left.
    + by apply join_all_finished.
  - simpl in Hk.
    destruct (run_workers_signalled (hd [] during) sys tid t) as (t' & Ht' & Hle');
      [by rewrite <- Hse|done|].
    destruct (IH (tl during) _ k tid t' Hstop Hk Ht') as [Hin Hfin].
    { destruct during as [|d ds]; simpl in *.
      - unfold statements_of in *. simpl in *. lia.
      - rewrite statements_of_app in Hle. lia. }
    split; [|done].
    apply elem_of_app. right. by right.
Qed.

(** C2 (amended): every [stop_tasks] call, whatever the workers do while
    it waits, sets the cancellation signal before the first join: the
    threads it leaves and the events it produces are those of the joins
    run from the state with the signal set, the signal is still set when
    the last join has returned, and a registered thread that gets to run
    its remaining statements (at most four) before its join returns is
    found finished by that join.  Each registered worker is joined once
    with a timeout of 5; then the state is reset: the status becomes
    [nologon] whether or not the session was authenticated, progress
    (0,0), no registered worker, no credentials, a fresh unset signal;
    the call replies success once. *)
Theorem stop_tasks_forced_reset (during : list (list (nat * nat))) (sys : System) :
  threads (stop_tasks during sys).1
    = threads (join_all (active_threads (state sys)) during
                        (with_state (set_stop_event true) sys)).1 ∧
  (stop_tasks during sys).2
    = (join_all (active_threads (state sys)) during
                (with_state (set_stop_event true) sys)).2
        ++ [EResponse ok_response] ∧
  stop_event (state (join_all (active_threads (state sys)) during
                              (with_state (set_stop_event true) sys)).1) = true ∧
  (∀ k tid t,
     active_threads (state sys) !! k = Some tid →
     threads sys !! tid = Some t →
     (statements_left (pc t) ≤ statements_of tid (concat (take (S k) during)))%nat →
     EJoin tid 5 true ∈ (stop_tasks during sys).2 ∧
     finished tid (stop_tasks during sys).1 = true) ∧
  joins (stop_tasks during sys).2 = map (λ t, (t, 5)) (active_threads (state sys)) ∧
  state (stop_tasks during sys).1 = reset ∧
  task_status (state (stop_tasks during sys).1) = nologon ∧
  progress (state (stop_tasks during sys).1) = mkProgress 0 0 ∧
  active_threads (state (stop_tasks during sys).1) = [] ∧
  stop_event (state (stop_tasks during sys).1) = false ∧
  responses (stop_tasks during sys).2 = [ok_response].
Proof.
  rewrite stop_tasks_unfold.
  set (signalled := with_state (set_stop_event true) sys).
  set (joined := join_all (active_threads (state sys)) during signalled).
  cbv zeta. simpl.
  split; [done|]. split; [done|].
  split.
  { destruct (join_all_frame (active_threads (state sys)) during signalled) as (H&_).
    fold joined in H. by rewrite H. }
  split.
  { intros k tid t Hk Ht Hle.
    destruct (join_all_signalled (active_threads (state sys)) during signalled k tid t)
      as [Hin Hfin]; [done..|].
    fold joined in Hin, Hfin. split.
    - apply elem_of_app. by left.
    - exact Hfin. }
  split.
  { unfold joins. rewrite omap_app. simpl. rewrite app_nil_r.
    apply join_all_joins. }
  repeat (split; [done|]).
  unfold responses. rewrite omap_app. simpl.
  fold (responses joined.2). unfold joined. by rewrite join_all_responses.
Qed.

(** C2 at a concrete run: a stop while the worker sleeps after its first
    write; the worker gets three statements before the join returns. *)
Lemma stop_tasks_forced_reset_witness :
  EJoin 0 5 true ∈ (stop_tasks [replicate 3 (0%nat, 0%nat)] sleeping).2 ∧
  finished 0 (stop_tasks [replicate 3 (0%nat, 0%nat)] sleeping).1 = true ∧
  state (stop_tasks [replicate 3 (0%nat, 0%nat)] sleeping).1 = reset ∧
  responses (stop_tasks [replicate 3 (0%nat, 0%nat)] sleeping).2 = [ok_response].
Proof.
  destruct (stop_tasks_forced_reset [replicate 3 (0%nat, 0%nat)] sleeping)
    as (_ & _ & _ & Hjoin & _ & Hreset & _ & _ & _ & _ & Hreply).
  destruct (Hjoin 0%nat 0%nat (mkThread BrainBurst (PyInt 0) (PyInt 1) (Sleep 1 101 100)))
    as [Hin Hfin].
  - reflexivity.
  - reflexivity.
  - vm_compute. lia.
  - done.
Defined.

(** ** Cancellation seen by a worker (C8) *)

#[local] Arguments loop_header : simpl never.

(** C8, as the spec states it, fails: [stop_tasks] sets the signal while
    thread 0 is alive; the thread returns before the join gives up, and
    the status it leaves is [error]. *)
Lemma cancelled_worker_may_end_in_error :
  (is_alive <$> threads started_with_list !! 0%nat) = Some true ∧
  stop_event (state (with_state (set_stop_event true) started_with_list)) = true ∧
  (join_all (active_threads (state started_with_list))
            [replicate 3 (0%nat, 0%nat)]
            (with_state (set_stop_event true) started_with_list)).2
    = [EJoin 0 5 true] ∧
  task_status
    (state (join_all (active_threads (state started_with_list))
                     [replicate 3 (0%nat, 0%nat)]
                     (with_state (set_stop_event true) started_with_list)).1)
    = error.
Proof. repeat split; reflexivity. Qed.

Lemma local_run_cancelled m tid entropy t g :
  pc t ≠ Done →
  stop_event g = true →
  pc (local_run (4 + m) tid entropy t g).1.1 = Done ∧
  (length (sleeps_of tid (local_run (4 + m) tid entropy t g).2) ≤ 1)%nat ∧
  task_status (local_run (4 + m) tid entropy t g).1.2
    = (if body_fails t entropy then error else completed) ∧
  progress (local_run (4 + m) tid entropy t g).1.2
    = match pc t with
      | Write i _ n => mkProgress i n
      | _ => progress g
      end.
Proof.
  intros Halive Hstop.
  destruct g as [st pr sv act ck]. simpl in Hstop. subst sv.
  destruct t as [k u p pcv]. simpl in Halive. unfold body_fails.
  destruct pcv as [| |i hi n|i hi n|i hi n| | |]; try done;
    repeat (cbn;
            match goal with
            | |- context [loop_header ?a ?b] =>
                change (loop_header a b) with (loop_header (mkThread k u p Spawned) b);
                generalize (loop_header (mkThread k u p Spawned) b);
                intros [[[? ?] ?]|?]
            | |- context [Z.leb ?a ?b] => destruct (Z.leb a b)
            end);
    cbn; rewrite ?local_run_done by done; cbn;
    rewrite ?bool_decide_eq_true_2 by done; cbn;
    repeat split; try done; lia.
Qed.

(** C8 (amended): once the cancellation signal is set and as long as
    nothing resets it, a live worker returns within four of its own
    statements, at most one of which is a sleep; the status it leaves is
    [completed], unless the body of [run] itself raises before reaching the
    loop (a duration that is neither an int nor a valid two-element tuple),
    in which case it is [error] as it would be without cancellation; the
    worker keeps the progress pair, adding at most the one write it had
    already committed to. *)
Theorem cancelled_worker_terminates
    (tid entropy n : nat) (t : Thread) (sys : System) :
  threads sys !! tid = Some t →
  pc t ≠ Done →
  stop_event (state sys) = true →
  (4 ≤ n)%nat →
  finished tid (run_workers (replicate n (tid, entropy)) sys).1 = true ∧
  (length (sleeps_of tid (run_workers (replicate n (tid, entropy)) sys).2) ≤ 1)%nat ∧
  task_status (state (run_workers (replicate n (tid, entropy)) sys).1)
    = (if body_fails t entropy then error else completed) ∧
  progress (state (run_workers (replicate n (tid, entropy)) sys).1)
    = match pc t with
      | Write i _ m => mkProgress i m
      | _ => progress (state sys)
      end.
Proof.
  intros Ht Halive Hstop Hn.
  replace n with (4 + (n - 4))%nat by lia.
  destruct (run_workers_alone (4 + (n - 4)) tid entropy sys t Ht) as (Hth & Hst & Htr).
  destruct (local_run_cancelled (n - 4) tid entropy t (state sys) Halive Hstop)
    as (Hpc & Hsl & Hstat & Hprog).
  unfold finished, is_alive. rewrite Hth, Hst, Htr.
  split; [|done].
  rewrite Hpc. done.
Qed.

(** C8 at a concrete state: the sleeping worker wakes up once, sees the
    signal, and returns with status [completed] and progress (1,100). *)
Lemma cancelled_worker_terminates_witness :
  finished 0 (run_workers (replicate 4 (0%nat, 0%nat)) sleeping_signalled).1 = true ∧
  (length (sleeps_of 0 (run_workers (replicate 4 (0%nat, 0%nat)) sleeping_signalled).2)
     ≤ 1)%nat ∧
  task_status (state (run_workers (replicate 4 (0%nat, 0%nat)) sleeping_signalled).1)
    = completed ∧
  progress (state (run_workers (replicate 4 (0%nat, 0%nat)) sleeping_signalled).1)
    = mkProgress 1 100.
Proof.
  apply (cancelled_worker_terminates 0 0 4
           (mkThread BrainBurst (PyInt 0) (PyInt 1) (Sleep 1 101 100))
           sleeping_signalled).
  - reflexivity.
  - discriminate.
  - reflexivity.
  - lia.
Defined.

(** ** Two workers at once (C1) *)

(** C1: [start_task] tests the status, but the status is only written by
    the thread it starts.  A second request that arrives before the first
    thread has run its first statement is accepted too, and both threads
    are then inside their loops together; the same happens without any
    race when a login (which resets the status but joins nobody) comes
    between two starts. *)
Theorem two_workers_run_at_once :
  responses (run two_starts init).2 = [ok_response; ok_response; ok_response] ∧
  threads (run two_starts init).1
    = [mkThread BrainBurst (PyInt 0) (PyInt 1) (Sleep 1 101 100);
       mkThread AwayFromKeyboard (PyInt 0) (PyInt 30) (Sleep 0 30 30)] ∧
  length (alive_threads (run two_starts init).1) = 2%nat ∧
  get_status (run two_starts init).1
    = StatusJson away_from_keyboard (mkProgress 0 30) 2 ∧
  responses (run relogin_and_start init).2
    = [ok_response; ok_response; ok_response; ok_response] ∧
  length (alive_threads (run relogin_and_start init).1) = 2%nat.
Proof. repeat split; reflexivity. Qed.

(** ** The duration worker on the range (2,2) (C6) *)

Lemma loop_header_with_pc p t entropy :
  loop_header (with_pc p t) entropy = loop_header t entropy.
Proof. done. Qed.

Lemma loop_header_pair_2_2 u p entropy :
  loop_header (mkThread AwayFromKeyboard u (PyTuple [2; 2]) p) entropy = Ok (0, 2, 2).
Proof.
  unfold loop_header, randint_star, randint. simpl.
  by rewrite Z.mod_1_r.
Qed.

(** C6: whatever [randint] draws, the duration resolved from (2,2) is 2
    and it is resolved once; the worker writes (0,2) then (1,2) and returns
    with status [completed], so the final progress is (1,2) and not (2,2).
    Sent through [start_task], the same range arrives as a JSON array,
    which [run] cannot turn into a [range]: the status ends as [error]. *)
Theorem afk_pair_completes_at_1_of_2 (entropy : nat) :
  loop_header afk_pair entropy = Ok (0, 2, 2) ∧
  finished 0 (run_workers (replicate 10 (0%nat, entropy)) afk_pair_started).1 = true ∧
  task_status (state (run_workers (replicate 10 (0%nat, entropy)) afk_pair_started).1)
    = completed ∧
  writes_of 0 (run_workers (replicate 10 (0%nat, entropy)) afk_pair_started).2
    = [mkProgress 0 2; mkProgress 1 2] ∧
  progress (state (run_workers (replicate 10 (0%nat, entropy)) afk_pair_started).1)
    = mkProgress 1 2 ∧
  mkProgress 1 2 ≠ mkProgress 2 2 ∧
  task_status
    (state (run (StartTask "away_from_keyboard" (PyInt 0) (PyList [2; 2])
                   :: replicate 3 (WorkerStep 0 entropy)) logged_in).1)
    = error.
Proof.
  split; [apply loop_header_pair_2_2|].
  destruct (run_workers_alone 10 0 entropy afk_pair_started afk_pair eq_refl)
    as (Hth & Hst & Htr).
  unfold finished, is_alive. rewrite Hth, Hst, Htr.
  assert (Hrun : local_run 10 0 entropy afk_pair (state afk_pair_started)
                 = (with_pc Done afk_pair,
                    set_status completed
                      (set_progress (mkProgress 1 2)
                         (set_progress (mkProgress 0 2)
                            (set_status away_from_keyboard (state afk_pair_started)))),
                    [EProgress 0 (mkProgress 0 2); ESleep 0 1000;
                     EProgress 0 (mkProgress 1 2); ESleep 0 1000])).
  { unfold afk_pair. cbn.
    rewrite !loop_header_with_pc, !loop_header_pair_2_2. reflexivity. }
  rewrite Hrun. repeat split; try reflexivity. discriminate.
Qed.

(** ** After a worker has returned by itself (C10) *)

Lemma worker_step_returned tid entropy sys :
  all_returned sys → worker_step tid entropy sys = (sys, []).
Proof.
  intros Hall. unfold worker_step.
  destruct (threads sys !! tid) as [t|] eqn:Ht; [|done].
  by rewrite (Hall tid t Ht).
Qed.

Lemma exec_quiescent l sys :
  all_returned sys →
  terminal (task_status (state sys)) = true →
  keeps_registration l = true →
  (exec l sys).1 = sys.
Proof.
  intros Hall Hterm Hl.
  destruct l as [text valid| | |ty u p|during| |tid e]; simpl in *; try done.
  - unfold start_task. case_bool_decide as Hst; [done|].
    by rewrite Hst in Hterm.
  - by rewrite worker_step_returned.
Qed.

Lemma run_quiescent ls sys :
  all_returned sys →
  terminal (task_status (state sys)) = true →
  Forall (λ l, keeps_registration l = true) ls →
  (run ls sys).1 = sys.
Proof.
  intros Hall Hterm Hls. induction Hls as [|l ls Hl _ IH]; [done|].
  rewrite run_cons. simpl. by rewrite (exec_quiescent l sys Hall Hterm Hl).
Qed.

Lemma next_pc_done entropy stop t :
  pc t ≠ Done →
  next_pc entropy stop t = Done →
  pc t = Finish ∨ pc t = Except.
Proof.
  unfold next_pc. destruct (pc t) as [| |i hi n|i hi n|i hi n| | |]; try done; eauto.
  - by destruct (loop_header t entropy) as [[[lo hi] n]|].
  - destruct (hi <=? i); [done|]. by destruct stop.
Qed.

Lemma terminal_running_or_terminal st :
  terminal st = true → running_or_terminal st.
Proof. unfold running_or_terminal. destruct st; simpl; try done; tauto. Qed.

Lemma running_or_terminal_not_idle st : running_or_terminal st → st ≠ idle.
Proof. intros [H|[H|[H|H]]]; congruence. Qed.

(** A step other than a login or a stop, taken while the status is one a
    worker wrote, keeps it such and registers nothing. *)
Lemma exec_stays_busy l sys :
  keeps_registration l = true →
  running_or_terminal (task_status (state sys)) →
  running_or_terminal (task_status (state (exec l sys).1)) ∧
  active_threads (state (exec l sys).1) = active_threads (state sys).
Proof.
  intros Hl Hst.
  destruct l as [text valid| | |ty u p|during| |tid e]; simpl in *; try done.
  - unfold start_task.
    by rewrite bool_decide_eq_true_2 by (by apply running_or_terminal_not_idle).
  - split.
    + destruct (worker_step_status tid e sys) as [H|[H|[H|[H|H]]]]; rewrite H;
        unfold running_or_terminal; tauto.
    + by destruct (worker_step_frame tid e sys) as (_ & -> & _).
Qed.

Lemma run_stays_busy ls : ∀ sys,
  Forall (λ l, keeps_registration l = true) ls →
  running_or_terminal (task_status (state sys)) →
  running_or_terminal (task_status (state (run ls sys).1)) ∧
  active_threads (state (run ls sys).1) = active_threads (state sys).
Proof.
  induction ls as [|l ls IH]; intros sys Hls Hst; [done|].
  apply Forall_cons in Hls as [Hl Hls].
  rewrite run_cons. simpl.
  destruct (exec_stays_busy l sys Hl Hst) as [Hst1 Hreg1].
  destruct (IH _ Hls Hst1) as [Hst2 Hreg2].
  split; [done|]. by rewrite Hreg2.
Qed.

(** C10, as the spec states it, fails.  A login while the worker runs
    empties [active_threads]; the worker then returns on its own and
    [get_status] reports [completed] with no active thread.  After two
    racing starts both workers are registered; when the second returns,
    [get_status] reports two. *)
Lemma returned_worker_count_is_not_one :
  finished 0 relogin_before_return = false ∧
  finished 0 (worker_step 0 0 relogin_before_return).1 = true ∧
  get_status (worker_step 0 0 relogin_before_return).1
    = StatusJson completed (mkProgress 100 100) 0 ∧
  finished 1 race_before_return = false ∧
  finished 1 (worker_step 1 0 race_before_return).1 = true ∧
  get_status (worker_step 1 0 race_before_return).1
    = StatusJson completed (mkProgress 0 1) 2.
Proof. vm_compute. repeat split. Qed.

(** C10 (amended): the statement with which a worker returns writes
    [completed] or [error] and leaves [active_threads] as it is.  From
    then on, through any steps other than a login or a stop,
    [active_threads] does not change, so [get_status] reports as many
    active threads as were registered when the worker returned (one if
    the worker was the only registered thread, none after a login that
    came while it ran, two after two racing starts); the status remains
    one a worker wrote, never [idle], and every start request is turned
    down as busy.  If no other thread is still running, the state does
    not change at all and the status stays the terminal one. *)
Theorem returned_worker_stays_registered
    (tid entropy : nat) (t : Thread) (sys : System)
    (ls : list Label) (ty : string) (u p : PyVal) :
  threads sys !! tid = Some t →
  pc t ≠ Done →
  finished tid (worker_step tid entropy sys).1 = true →
  Forall (λ l, keeps_registration l = true) ls →
  active_threads (state (worker_step tid entropy sys).1) = active_threads (state sys) ∧
  terminal (task_status (state (worker_step tid entropy sys).1)) = true ∧
  active_threads (state (run ls (worker_step tid entropy sys).1).1)
    = active_threads (state sys) ∧
  running_or_terminal (task_status (state (run ls (worker_step tid entropy sys).1).1)) ∧
  get_status (run ls (worker_step tid entropy sys).1).1
    = StatusJson (task_status (state (run ls (worker_step tid entropy sys).1).1))
                 (progress (state (run ls (worker_step tid entropy sys).1).1))
                 (length (active_threads (state sys))) ∧
  start_task ty u p (run ls (worker_step tid entropy sys).1).1
    = ((run ls (worker_step tid entropy sys).1).1,
       [EResponse (Json false (Literal MSG_BUSY))]) ∧
  ((∀ tid' t', tid' ≠ tid → threads sys !! tid' = Some t' → pc t' = Done) →
   (run ls (worker_step tid entropy sys).1).1 = (worker_step tid entropy sys).1) ∧
  (active_threads (state sys) = [tid] →
   get_status (run ls (worker_step tid entropy sys).1).1
     = StatusJson (task_status (state (run ls (worker_step tid entropy sys).1).1))
                  (progress (state (run ls (worker_step tid entropy sys).1).1)) 1).
Proof.
  intros Ht Halive Hfin Hls.
  destruct (worker_step_self tid entropy sys t Ht) as (Hth & Hst & _).
  destruct (worker_step_frame tid entropy sys) as (_ & Hreg & _).
  set (sys1 := (worker_step tid entropy sys).1) in *.
  unfold finished, is_alive in Hfin. rewrite Hth in Hfin. simpl in Hfin.
  apply negb_true_iff, bool_decide_eq_false in Hfin. apply dec_stable in Hfin.
  assert (Hterm : terminal (task_status (state sys1)) = true).
  { rewrite Hst. unfold next_state.
    by destruct (next_pc_done _ _ _ Halive Hfin) as [-> | ->]. }
  destruct (run_stays_busy ls sys1 Hls (terminal_running_or_terminal _ Hterm))
    as [Hbusy Hsame].
  rewrite Hreg in Hsame.
  assert (Hstatus : get_status (run ls sys1).1
                    = StatusJson (task_status (state (run ls sys1).1))
                                 (progress (state (run ls sys1).1))
                                 (length (active_threads (state sys)))).
  { unfold get_status. by rewrite Hsame. }
  repeat (split; [done|]).
  split.
  { unfold start_task.
    by rewrite bool_decide_eq_true_2 by (by apply running_or_terminal_not_idle). }
  split.
  - intros Hothers. apply run_quiescent; [|done..].
    intros tid' t' Ht'. destruct (decide (tid' = tid)) as [->|Hne].
    + rewrite Hth in Ht'. injection Ht' as <-. exact Hfin.
    + destruct (worker_step_other tid' tid entropy sys) as (Hsame' & _); [done|].
      fold sys1 in Hsame'. rewrite Hsame' in Ht'. by eapply Hothers.
  - intros Hone. by rewrite Hstatus, Hone.
Qed.

(** C10 at a concrete run: the only worker returns, then a status query,
    a start request and a spurious worker step follow. *)
Lemma returned_worker_stays_registered_witness :
  active_threads (state (worker_step 0 0 about_to_return).1) = [0%nat] ∧
  terminal (task_status (state (worker_step 0 0 about_to_return).1)) = true ∧
  (run [GetStatus; StartTask "brain_burst" (PyInt 0) (PyInt 1); WorkerStep 0 0]
       (worker_step 0 0 about_to_return).1).1
    = (worker_step 0 0 about_to_return).1 ∧
  get_status
    (run [GetStatus; StartTask "brain_burst" (PyInt 0) (PyInt 1); WorkerStep 0 0]
         (worker_step 0 0 about_to_return).1).1
    = StatusJson
        (task_status
           (state (run [GetStatus; StartTask "brain_burst" (PyInt 0) (PyInt 1); WorkerStep 0 0]
                       (worker_step 0 0 about_to_return).1).1))
        (progress
           (state (run [GetStatus; StartTask "brain_burst" (PyInt 0) (PyInt 1); WorkerStep 0 0]
                       (worker_step 0 0 about_to_return).1).1))
        1 ∧
  start_task "away_from_keyboard" (PyInt 0) (PyInt 5)
    (run [GetStatus; StartTask "brain_burst" (PyInt 0) (PyInt 1); WorkerStep 0 0]
         (worker_step 0 0 about_to_return).1).1
    = ((run [GetStatus; StartTask "brain_burst" (PyInt 0) (PyInt 1); WorkerStep 0 0]
            (worker_step 0 0 about_to_return).1).1,
       [EResponse (Json false (Literal MSG_BUSY))]).
Proof.
  destruct (returned_worker_stays_registered 0 0
              (mkThread BrainBurst (PyInt 0) (PyInt 1) Finish) about_to_return
              [GetStatus; StartTask "brain_burst" (PyInt 0) (PyInt 1); WorkerStep 0 0]
              "away_from_keyboard" (PyInt 0) (PyInt 5))
    as (Hreg & Hterm & _ & _ & _ & Hstart & Hquiet & Hone).
  - vm_compute. reflexivity.
  - discriminate.
  - vm_compute. reflexivity.
  - repeat constructor.
  - split; [exact Hreg|]. split; [exact Hterm|]. split.
    + apply Hquiet. intros tid' t' Hne Ht'. destruct tid' as [|tid']; [done|].
      vm_compute in Ht'. discriminate.
    + split; [|exact Hstart]. apply Hone. vm_compute. reflexivity.
Defined.

Example about_to_return_progress :
  progress (state about_to_return) = mkProgress 100 100 ∧
  task_status (state about_to_return) = brain_burst.
Proof. vm_compute. done. Qed.

(** * Further properties

    ** Cookie text *)

Lemma split_not_nil sep s : split sep s ≠ [].
Proof.
  destruct s as [|c s]; simpl; [done|].
  destruct (Ascii.eqb c sep); [done|]. by destruct (split sep s).
Qed.

(** [(a + sep + b).split(sep) == a.split(sep) + b.split(sep)]. *)
Lemma split_app_sep sep a b :
  split sep (a +:+ String sep b) = split sep a ++ split sep b.
Proof.
  induction a as [|c a IH]; simpl.
  - by rewrite Ascii.eqb_refl.
  - destruct (Ascii.eqb c sep); [by rewrite IH|].
    rewrite IH. destruct (split sep a) as [|h t] eqn:Hs; [|done].
    by destruct (split_not_nil sep a).
Qed.

Lemma split_no_sep sep s : has_char sep s = false → split sep s = [s].
Proof.
  induction s as [|c s IH]; simpl; [done|].
  intros [Hc Hs]%orb_false_iff. by rewrite Hc, (IH Hs).
Qed.

Lemma split_once_no_sep sep s : has_char sep s = false → split_once sep s = [s].
Proof.
  induction s as [|c s IH]; simpl; [done|].
  intros [Hc Hs]%orb_false_iff. by rewrite Hc, (IH Hs).
Qed.

Lemma split_once_cut sep a b :
  has_char sep a = false → split_once sep (a +:+ String sep b) = [a; b].
Proof.
  induction a as [|c a IH]; simpl.
  - by rewrite Ascii.eqb_refl.
  - intros [Hc Ha]%orb_false_iff. by rewrite Hc, (IH Ha).
Qed.

Lemma split_once_has_sep sep s :
  has_char sep s = true →
  ∃ a b, split_once sep s = [a; b] ∧ s = a +:+ String sep b ∧ has_char sep a = false.
Proof.
  induction s as [|c s IH]; simpl; [done|].
  destruct (Ascii.eqb c sep) eqn:Hc; simpl.
  - apply Ascii.eqb_eq in Hc as ->. intros _. by exists EmptyString, s.
  - intros Hs. destruct (IH Hs) as (a & b & -> & -> & Ha).
    exists (String c a), b. simpl. by rewrite Hc, Ha.
Qed.

Lemma has_char_app c a b : has_char c (a +:+ b) = has_char c a || has_char c b.
Proof. induction a as [|x a IH]; simpl; [done|]. by rewrite IH, orb_assoc. Qed.

Lemma split_concat sep xs :
  xs ≠ [] →
  Forall (λ x, has_char sep x = false) xs →
  split sep (String.concat (String sep EmptyString) xs) = xs.
Proof.
  intros Hne Hxs. induction Hxs as [|x xs Hx Hxs IH]; [done|].
  destruct xs as [|y ys]; simpl.
  - by apply split_no_sep.
  - change (split sep (x +:+ String sep (String.concat (String sep EmptyString) (y :: ys)))
            = x :: y :: ys).
    rewrite split_app_sep, split_no_sep by done. simpl. f_equal. by apply IH.
Qed.

Lemma dict_update_pairs kvs index acc :
  dict_update (map (λ kv : string * string, [kv.1; kv.2]) kvs) index acc
  = Ok (foldl (λ m kv, <[kv.1 := kv.2]> m) acc kvs).
Proof.
  revert index acc. induction kvs as [|[k v] kvs IH]; intros index acc; [done|].
  simpl. apply IH.
Qed.

Lemma render_pair_split kv :
  has_char "=" kv.1 = false → split_once "=" (render_pair kv) = [kv.1; kv.2].
Proof. intros H. unfold render_pair. by apply (split_once_cut "="). Qed.

Lemma render_pair_nonempty kv : nonempty (render_pair kv) = true.
Proof. unfold render_pair. by destruct (kv.1). Qed.

Lemma render_pair_no_semicolon kv :
  cookie_safe kv → has_char ";" (render_pair kv) = false.
Proof.
  intros (H1 & _ & H2). unfold render_pair.
  rewrite has_char_app, H1. simpl. exact H2.
Qed.

Lemma filter_all {A} (P : A → Prop) `{!∀ x, Decision (P x)} (l : list A) :
  Forall P l → filter P l = l.
Proof.
  induction 1 as [|x l Hx _ IH]; [done|].
  by rewrite filter_cons_True, IH.
Qed.

Lemma cookie_dict_render kvs :
  Forall cookie_safe kvs →
  cookie_dict (render_cookies kvs) = Ok (dict_of_pairs kvs).
Proof.
  intros Hsafe. unfold cookie_dict, render_cookies, dict_of_pairs.
  destruct kvs as [|kv kvs]; [done|].
  assert (Hsplit : split ";" (String.concat ";" (map render_pair (kv :: kvs)))
                   = map render_pair (kv :: kvs)).
  { apply (split_concat ";"); [done|].
    apply Forall_map. eapply Forall_impl; [exact Hsafe|].
    apply render_pair_no_semicolon. }
  rewrite Hsplit.
  rewrite filter_all by
    (apply Forall_map, Forall_forall; intros x _; apply render_pair_nonempty).
  rewrite <- (dict_update_pairs (kv :: kvs) 0 ∅). f_equal.
  rewrite map_map. apply map_ext_Forall.
  eapply Forall_impl; [exact Hsafe|]. intros x (_ & Hx & _).
  by apply render_pair_split.
Qed.

(** X1: round trip of the cookie text.  For every ordered list of pairs
    whose keys contain neither [;] nor [=] and whose values contain no [;]
    (values may contain [=]), parsing the pairs joined with [;] gives back
    exactly [dict] of the list, a later duplicate key overwriting an
    earlier one. *)
Theorem cookie_dict_round_trip (kvs : list (string * string)) :
  Forall cookie_safe kvs →
  cookie_dict (render_cookies kvs) = Ok (dict_of_pairs kvs) ∧
  ∀ k v, last (filter (λ kv, kv.1 = k) kvs) = Some (k, v) →
         dict_of_pairs kvs !! k = Some v.
Proof.
  intros Hsafe. split; [by apply cookie_dict_render|].
  intros k v. unfold dict_of_pairs. clear Hsafe.
  induction kvs as [|[k' v'] kvs IH] using rev_ind; [done|].
  rewrite filter_app, foldl_app. simpl.
  rewrite filter_cons, filter_nil. simpl.
  destruct (decide (k' = k)) as [->|Hne].
  - rewrite last_snoc. intros [= ->]. by rewrite lookup_insert_eq.
  - rewrite app_nil_r, lookup_insert_ne by done. exact IH.
Qed.

Lemma cookie_dict_round_trip_witness :
  cookie_dict (render_cookies [("sid", "a=b"); ("lang", "en"); ("sid", "c")])
    = Ok (dict_of_pairs [("sid", "a=b"); ("lang", "en"); ("sid", "c")]) ∧
  ∀ k v, last (filter (λ kv, kv.1 = k) [("sid", "a=b"); ("lang", "en"); ("sid", "c")])
           = Some (k, v) →
         dict_of_pairs [("sid", "a=b"); ("lang", "en"); ("sid", "c")] !! k = Some v.
Proof.
  apply (cookie_dict_round_trip [("sid", "a=b"); ("lang", "en"); ("sid", "c")]).
  repeat constructor.
Defined.

Lemma render_header_as_cookies kv kvs :
  render_header (kv :: kvs)
  = render_cookies (kv :: map (λ x : string * string, (" " +:+ x.1, x.2)) kvs).
Proof.
  unfold render_header, render_cookies.
  assert (Hrest : ∀ y r,
    String.concat ";" (map render_pair
                         (map (λ x : string * string, (" " +:+ x.1, x.2)) (y :: r)))
    = String " " (String.concat "; " (map render_pair (y :: r)))).
  { intros y r. revert y. induction r as [|z r IH]; intros y; [done|].
    specialize (IH z). cbn [map] in *. cbn [String.concat].
    cbn [String.concat] in IH. rewrite IH. reflexivity. }
  destruct kvs as [|y r]; [done|].
  specialize (Hrest y r). cbn [map] in *. cbn [String.concat].
  cbn [String.concat] in Hrest. rewrite Hrest. reflexivity.
Qed.

(** X2: a cookie text in header form, with a space after each semicolon,
    is accepted, and nothing is stripped: every key but the first is
    stored with the space in front of it. *)
Theorem cookie_dict_header_keeps_spaces
    (kv : string * string) (kvs : list (string * string)) :
  Forall cookie_safe (kv :: kvs) →
  cookie_dict (render_header (kv :: kvs))
  = Ok (dict_of_pairs (kv :: map (λ x : string * string, (" " +:+ x.1, x.2)) kvs)).
Proof.
  intros Hsafe. rewrite render_header_as_cookies. apply cookie_dict_render.
  inversion Hsafe as [|? ? Hkv Hkvs]; subst. constructor; [done|].
  apply Forall_map. eapply Forall_impl; [exact Hkvs|].
  intros x (H1 & H2 & H3). by repeat split.
Qed.

Lemma cookie_dict_header_keeps_spaces_witness :
  cookie_dict (render_header [("sid", "1"); ("lang", "en")])
  = Ok (dict_of_pairs [("sid", "1"); (" lang", "en")]).
Proof.
  apply (cookie_dict_header_keeps_spaces ("sid", "1") [("lang", "en")]).
  repeat constructor.
Defined.

Lemma dict_update_find segs index acc :
  match list_find (λ s, has_char "=" s = false) segs with
  | None => ∃ d, dict_update (map (split_once "=") segs) index acc = Ok d
  | Some (i, _) =>
      dict_update (map (split_once "=") segs) index acc
      = Raise (ValueError_dict_update (index + i))
  end.
Proof.
  revert index acc. induction segs as [|seg segs IH]; intros index acc.
  - by exists acc.
  - cbn [list_find map]. destruct (decide (has_char "=" seg = false)) as [Hno|Hyes].
    + rewrite (split_once_no_sep "=" seg Hno). simpl. by rewrite Nat.add_0_r.
    + apply not_false_iff_true in Hyes.
      destruct (split_once_has_sep "=" seg Hyes) as (a & b & -> & _).
      specialize (IH (S index) (<[a := b]> acc)).
      cbn [dict_update]. destruct (list_find _ segs) as [[i s]|]; simpl.
      * by rewrite IH, Nat.add_succ_r.
      * exact IH.
Qed.

(** X3: which texts [api_login] can parse.  The cookie text parses
    exactly when every non-empty segment between semicolons contains an
    [=]; otherwise the exception raised carries the position, among the
    non-empty segments, of the first one that has none. *)
Theorem cookie_dict_accepts_iff (text : string) :
  ((∃ d, cookie_dict text = Ok d)
   ↔ Forall (λ seg, has_char "=" seg = true) (segments text)) ∧
  ∀ i, cookie_dict text = Raise (ValueError_dict_update i)
       ↔ ∃ seg, segments text !! i = Some seg ∧ has_char "=" seg = false ∧
                ∀ j s, (j < i)%nat → segments text !! j = Some s →
                       has_char "=" s = true.
Proof.
  unfold cookie_dict. fold (segments text).
  pose proof (dict_update_find (segments text) 0 ∅) as H.
  destruct (list_find _ (segments text)) as [[i0 s0]|] eqn:Hfind.
  - apply list_find_Some in Hfind as (Hi0 & Hs0 & Hbefore). simpl in H.
    split.
    + split.
      * intros [d Hd]. by rewrite H in Hd.
      * intros Hall. rewrite Forall_lookup in Hall.
        specialize (Hall i0 s0 Hi0). by rewrite Hs0 in Hall.
    + intros i. rewrite H. split.
      * intros [= <-]. exists s0. repeat split; [done..|].
        intros j s Hj Hs. apply not_false_iff_true. by eapply Hbefore.
      * intros (seg & Hseg & Hno & Hlt).
        destruct (Nat.lt_trichotomy i i0) as [Hlt'|[->|Hgt]]; [|done|].
        -- by destruct (Hbefore i seg Hseg Hlt').
        -- specialize (Hlt i0 s0 Hgt Hi0). by rewrite Hs0 in Hlt.
  - destruct H as [d Hd]. rewrite Hd.
    assert (Hall : Forall (λ seg, has_char "=" seg = true) (segments text)).
    { apply list_find_None in Hfind. eapply Forall_impl; [exact Hfind|].
      intros s Hs. by apply not_false_iff_true. }
    split.
    + split; [done|]. intros _. by exists d.
    + intros i. split; [done|]. intros (seg & Hseg & Hno & _).
      rewrite Forall_lookup in Hall. specialize (Hall i seg Hseg).
      by rewrite Hno in Hall.
Qed.

Lemma segments_app_sep a b :
  segments (a +:+ String ";" b) = segments a ++ segments b.
Proof. unfold segments. by rewrite split_app_sep, filter_app. Qed.

Lemma dict_update_app l1 l2 index acc :
  dict_update (l1 ++ l2) index acc
  = match dict_update l1 index acc with
    | Ok m => dict_update l2 (index + length l1) m
    | Raise e => Raise e
    end.
Proof.
  revert index acc. induction l1 as [|x l1 IH]; intros index acc.
  - simpl. by rewrite Nat.add_0_r.
  - destruct x as [|k [|v [|w x]]]; try done.
    cbn [app dict_update length]. rewrite IH. by rewrite Nat.add_succ_r.
Qed.

Lemma dict_update_over l index index' acc0 acc d :
  dict_update l index acc0 = Ok d →
  dict_update l index' (acc0 ∪ acc) = Ok (d ∪ acc).
Proof.
  revert index index' acc0. induction l as [|x l IH]; intros index index' acc0.
  - by intros [= <-].
  - destruct x as [|k [|v [|w x]]]; try done.
    cbn [dict_update]. intros Hd. rewrite insert_union_l. by eapply IH.
Qed.

(** X4: two cookie texts joined by a semicolon.  If both parse, the
    joined text parses to the union of the two dicts in which the second
    text's value wins for a key they share. *)
Theorem cookie_dict_concat (a b : string) (da db : gmap string string) :
  cookie_dict a = Ok da →
  cookie_dict b = Ok db →
  cookie_dict (a +:+ ";" +:+ b) = Ok (db ∪ da).
Proof.
  unfold cookie_dict. fold (segments a) (segments b).
  change (a +:+ ";" +:+ b) with (a +:+ String ";" b).
  fold (segments (a +:+ String ";" b)).
  intros Ha Hb. rewrite segments_app_sep, map_app, dict_update_app, Ha.
  rewrite <- (left_id_L ∅ (∪) da) at 1. by eapply dict_update_over.
Qed.

Lemma cookie_dict_concat_witness :
  cookie_dict ("sid=1;lang=en" +:+ ";" +:+ "sid=2")
  = Ok (<["sid" := "2"]> ∅ ∪ <["lang" := "en"]> (<["sid" := "1"]> ∅)).
Proof.
  apply (cookie_dict_concat "sid=1;lang=en" "sid=2"); reflexivity.
Defined.

(** X5: empty segments do not count.  A semicolon at the end or at the
    start of the text, or a doubled one inside it, changes neither the
    dict parsed nor the exception raised. *)
Theorem cookie_dict_ignores_empty_segments (a b : string) :
  cookie_dict (a +:+ ";") = cookie_dict a ∧
  cookie_dict (";" +:+ a) = cookie_dict a ∧
  cookie_dict (a +:+ ";;" +:+ b) = cookie_dict (a +:+ ";" +:+ b).
Proof.
  assert (Hend : segments (a +:+ ";") = segments a).
  { rewrite <- (app_nil_r (segments a)). exact (segments_app_sep a EmptyString). }
  assert (Hstart : ∀ x, segments (";" +:+ x) = segments x)
    by (intros x; exact (segments_app_sep EmptyString x)).
  assert (Hmid : segments (a +:+ ";;" +:+ b) = segments (a +:+ ";" +:+ b)).
  { change (a +:+ ";;" +:+ b) with (a +:+ String ";" (";" +:+ b)).
    change (a +:+ ";" +:+ b) with (a +:+ String ";" b).
    by rewrite !segments_app_sep, Hstart. }
  unfold cookie_dict.
  fold (segments (a +:+ ";")) (segments (";" +:+ a)) (segments a)
       (segments (a +:+ ";;" +:+ b)) (segments (a +:+ ";" +:+ b)).
  by rewrite Hend, Hstart, Hmid.
Qed.

(** ** Start-up against [api_login] *)

Lemma has_eq_nonempty seg : has_char "=" seg = true → nonempty seg = true.
Proof. by destruct seg. Qed.

Lemma startup_cookie_dict_agrees text :
  Forall (λ seg, has_char "=" seg = true) (split ";" text) →
  startup_cookie_dict text = cookie_dict text ∧
  ∃ d, cookie_dict text = Ok d.
Proof.
  intros Hall. unfold startup_cookie_dict, cookie_dict.
  rewrite filter_all by (eapply Forall_impl; [exact Hall | apply has_eq_nonempty]).
  split; [done|].
  pose proof (dict_update_find (split ";" text) 0 ∅) as H.
  destruct (list_find _ (split ";" text)) as [[i s]|] eqn:Hfind; [|done].
  apply list_find_Some in Hfind as (Hi & Hs & _).
  rewrite Forall_lookup in Hall. specialize (Hall i s Hi). by rewrite Hs in Hall.
Qed.

(** X6: login, restart, automatic login.  When every segment of the
    cookie text between semicolons contains an [=], a successful
    [api_login] writes that text to the config once, and a restart that
    reads it back and passes validation ends in the same [state]:
    same credentials, status [idle], progress (0,0), nothing registered. *)
Theorem restart_restores_login (text : string) (sys : System) :
  Forall (λ seg, has_char "=" seg = true) (split ";" text) →
  config_writes (api_login text true sys).2 = [text] ∧
  task_status (state (api_login text true sys).1) = idle ∧
  state (autologin (ConfigCookies (Some text)) true init).1
    = state (api_login text true sys).1 ∧
  (autologin (ConfigCookies (Some text)) true init).2
    = [LogConfigLoaded; LogAutoLoginOk].
Proof.
  intros Hall.
  destruct (startup_cookie_dict_agrees text Hall) as (Hsame & d & Hd).
  assert (Hne : nonempty text = true).
  { destruct text; [|done]. by inversion Hall. }
  unfold autologin, api_login. rewrite Hne, Hsame, Hd. by simpl.
Qed.

Lemma restart_restores_login_witness :
  config_writes (api_login "sid=1;lang=en" true one_running).2 = ["sid=1;lang=en"] ∧
  task_status (state (api_login "sid=1;lang=en" true one_running).1) = idle ∧
  state (autologin (ConfigCookies (Some "sid=1;lang=en")) true init).1
    = state (api_login "sid=1;lang=en" true one_running).1 ∧
  (autologin (ConfigCookies (Some "sid=1;lang=en")) true init).2
    = [LogConfigLoaded; LogAutoLoginOk].
Proof.
  apply (restart_restores_login "sid=1;lang=en" one_running).
  repeat constructor.
Defined.

(** X7: a text [api_login] accepts can be refused at the next start.
    If the text parses for [api_login] but has an empty segment (a
    semicolon at either end, or two in a row), the login succeeds and
    writes it to the config, while the start-up block, which does not
    filter empty segments, fails to load it whatever the remote check
    would say: the system stays as it was and the failure is logged. *)
Theorem restart_refuses_empty_segment
    (text : string) (valid : bool) (sys sys0 : System) :
  (∃ d, cookie_dict text = Ok d) →
  nonempty text = true →
  EmptyString ∈ split ";" text →
  config_writes (api_login text true sys).2 = [text] ∧
  task_status (state (api_login text true sys).1) = idle ∧
  (autologin (ConfigCookies (Some text)) valid sys0).1 = sys0 ∧
  ∃ i, (autologin (ConfigCookies (Some text)) valid sys0).2
       = [LogConfigFailed (Some (ValueError_dict_update i))].
Proof.
  intros [d Hd] Hne Hin.
  split; [|split]; [unfold api_login; by rewrite Hd..|].
  unfold autologin, startup_cookie_dict. rewrite Hne.
  pose proof (dict_update_find (split ";" text) 0 ∅) as H.
  destruct (list_find _ (split ";" text)) as [[i s]|] eqn:Hfind.
  - rewrite H. split; [done|]. by exists i.
  - apply list_find_None in Hfind. rewrite Forall_forall in Hfind.
    by destruct (Hfind EmptyString Hin).
Qed.

Lemma restart_refuses_empty_segment_witness :
  config_writes (api_login "sid=1;" true init).2 = ["sid=1;"] ∧
  task_status (state (api_login "sid=1;" true init).1) = idle ∧
  (autologin (ConfigCookies (Some "sid=1;")) true init).1 = init ∧
  ∃ i, (autologin (ConfigCookies (Some "sid=1;")) true init).2
       = [LogConfigFailed (Some (ValueError_dict_update i))].
Proof.
  apply (restart_refuses_empty_segment "sid=1;" true init init).
  - by eexists.
  - reflexivity.
  - apply list_elem_of_In. simpl. tauto.
Defined.

(** ** start_task on the request body *)


(** X9: a refused start changes nothing.  Whatever the body and the
    state, [start_task] answers with exactly one reply, and unless that
    reply is success the whole system (state, thread pool, client) is
    what it was; a success adds exactly one thread and one registration. *)
Theorem start_task_json_refusal_is_clean (data : gmap string JVal) (sys : System) :
  (∃ r, (start_task_json data sys).2 = [EResponse r]) ∧
  ((start_task_json data sys).2 = [EResponse ok_response] ∧
   length (threads (start_task_json data sys).1) = S (length (threads sys)) ∧
   active_threads (state (start_task_json data sys).1)
     = active_threads (state sys) ++ [length (threads sys)]
   ∨
   (∃ e, (start_task_json data sys).2 = [EResponse (Json false e)]) ∧
   (start_task_json data sys).1 = sys).
Proof.
  unfold start_task_json, start_task.
  case_bool_decide as Hst; [split; eauto|].
  destruct (data !! "type") as [ty|]; [|split; eauto].
  destruct (data !! "unitIndex") as [u|]; [|split; eauto].
  destruct (data !! "params") as [p|]; [|split; eauto].
  destruct ty as [s| | | |]; try (split; by eauto).
  destruct (kind_of_type s) as [k|]; [|split; by eauto].
  simpl. split; [by eauto|]. left. repeat split.
  rewrite length_app. simpl. lia.
Qed.

(** ** Workers that are left alone *)

Lemma local_run_step n tid entropy t g :
  local_run (S n) tid entropy t g
  = let r := local_run n tid entropy
                       (with_pc (next_pc entropy (stop_event g) t) t) (next_state t g) in
    (r.1.1, r.1.2, step_events tid t ++ r.2).
Proof. simpl. by destruct (local_run n _ _ _ _) as [[? ?] ?]. Qed.

(** The loop of [run] without cancellation, from the test at index [i]:
    [k] iterations remain, each a write and a sleep. *)
Lemma local_loop k : ∀ m tid entropy kd u p i hi n g,
  stop_event g = false →
  k = Z.to_nat (hi - i) →
  let r := local_run (3 * k + 2 + m) tid entropy (mkThread kd u p (Check i hi n)) g in
  pc r.1.1 = Done ∧
  task_status r.1.2 = completed ∧
  progress r.1.2 = (if decide (k = 0%nat) then progress g else mkProgress (hi - 1) n) ∧
  active_threads r.1.2 = active_threads g ∧
  cookies r.1.2 = cookies g ∧
  writes_of tid r.2 = (λ j, mkProgress j n) <$> seqZ i (Z.of_nat k) ∧
  sleeps_of tid r.2 = replicate k (sleep_millis kd).
Proof.
  induction k as [|k IH]; intros m tid entropy kd u p i hi n g Hstop Hk.
  - assert (Hle : (hi <=? i) = true) by (apply Z.leb_le; lia).
    change (3 * 0 + 2 + m)%nat with (S (S m)).
    rewrite !local_run_step. cbv zeta.
    unfold next_pc, next_state, step_events.
    cbn [pc with_pc kind unit_idx param]. rewrite Hle.
    cbn [pc with_pc kind unit_idx param].
    rewrite local_run_done by reflexivity. cbn. by repeat split.
  - assert (Hgt : (hi <=? i) = false) by (apply Z.leb_gt; lia).
    replace (3 * S k + 2 + m)%nat with (S (S (S (3 * k + 2 + m)))) by lia.
    rewrite !local_run_step. cbv zeta.
    unfold next_pc, next_state, step_events.
    cbn [pc with_pc kind unit_idx param]. rewrite Hgt, Hstop.
    cbn [pc with_pc kind unit_idx param stop_event set_progress].
    specialize (IH m tid entropy kd u p (i + 1) hi n (set_progress (mkProgress i n) g)
                  Hstop ltac:(lia)).
    cbv zeta in IH.
    destruct (local_run (3 * k + 2 + m) tid entropy _ _) as [[t' g'] tr'].
    cbn [fst snd] in *.
    destruct IH as (Hpc & Hst & Hpr & Hact & Hck & Hw & Hsl).
    repeat split; try done.
    + rewrite Hpr. destruct (decide (S k = 0%nat)) as [?|_]; [lia|].
      destruct (decide (k = 0%nat)) as [->|]; [|done].
      simpl. f_equal. lia.
    + unfold writes_of in *. cbn [app omap list_omap].
      rewrite bool_decide_eq_true_2 by done. cbn [omap list_omap].
      rewrite Hw. rewrite (seqZ_cons i (Z.of_nat (S k))) by lia.
      cbn [fmap list_fmap]. f_equal.
      replace (Z.succ i) with (i + 1) by lia.
      replace (Z.pred (Z.of_nat (S k))) with (Z.of_nat k) by lia. done.
    + unfold sleeps_of in *. cbn [app omap list_omap].
      rewrite bool_decide_eq_true_2 by done. by rewrite Hsl.
Qed.

(** A thread from its first statement, when its loop header evaluates
    and nobody sets the signal. *)
Lemma local_run_uncancelled k m tid entropy kd u p lo hi n g :
  loop_header (mkThread kd u p Spawned) entropy = Ok (lo, hi, n) →
  stop_event g = false →
  k = Z.to_nat (hi - lo) →
  let r := local_run (3 * k + 4 + m) tid entropy (mkThread kd u p Spawned) g in
  pc r.1.1 = Done ∧
  task_status r.1.2 = completed ∧
  progress r.1.2 = (if decide (k = 0%nat) then progress g else mkProgress (hi - 1) n) ∧
  active_threads r.1.2 = active_threads g ∧
  cookies r.1.2 = cookies g ∧
  writes_of tid r.2 = (λ j, mkProgress j n) <$> seqZ lo (Z.of_nat k) ∧
  sleeps_of tid r.2 = replicate k (sleep_millis kd).
Proof.
  intros Hh Hstop Hk.
  replace (3 * k + 4 + m)%nat with (S (S (3 * k + 2 + m))) by lia.
  rewrite !local_run_step. cbv zeta.
  unfold next_pc, next_state, step_events. cbn [pc with_pc kind unit_idx param].
  change (loop_header _ entropy) with (loop_header (mkThread kd u p Spawned) entropy).
  rewrite Hh. cbn [pc with_pc kind unit_idx param].
  pose proof (local_loop k m tid entropy kd u p lo hi n (set_status (running kd) g)
                Hstop Hk) as H.
  cbv zeta in H.
  destruct (local_run (3 * k + 2 + m) tid entropy _ _) as [[t' g'] tr'].
  cbn [fst snd app] in *. exact H.
Qed.

(** X10: a brain-burst task that is not cancelled.  From its first
    statement, whatever [unit_idx] and [mycrate] are, it returns after 304
    statements: it has written (1,100), (2,100), ..., (100,100) in this
    order, slept 100 times 100 ms, and leaves status [completed] and
    progress (100,100); it has not touched the registrations or the
    credentials. *)
Theorem brain_burst_runs_to_100
    (tid entropy n : nat) (u p : PyVal) (sys : System) :
  threads sys !! tid = Some (mkThread BrainBurst u p Spawned) →
  stop_event (state sys) = false →
  (304 ≤ n)%nat →
  finished tid (run_workers (replicate n (tid, entropy)) sys).1 = true ∧
  task_status (state (run_workers (replicate n (tid, entropy)) sys).1) = completed ∧
  progress (state (run_workers (replicate n (tid, entropy)) sys).1) = mkProgress 100 100 ∧
  writes_of tid (run_workers (replicate n (tid, entropy)) sys).2
    = (λ j, mkProgress j 100) <$> seqZ 1 100 ∧
  sleeps_of tid (run_workers (replicate n (tid, entropy)) sys).2 = replicate 100 100 ∧
  active_threads (state (run_workers (replicate n (tid, entropy)) sys).1)
    = active_threads (state sys) ∧
  cookies (state (run_workers (replicate n (tid, entropy)) sys).1) = cookies (state sys).
Proof.
  intros Ht Hstop Hn.
  destruct (run_workers_alone n tid entropy sys _ Ht) as (Hth & Hst & Htr).
  pose proof (local_run_uncancelled 100 (n - 304) tid entropy BrainBurst u p 1 101 100
                (state sys) eq_refl Hstop eq_refl) as H.
  cbv zeta in H. replace (3 * 100 + 4 + (n - 304))%nat with n in H by lia.
  destruct H as (Hpc & Hstat & Hprog & Hact & Hck & Hw & Hsl).
  unfold finished, is_alive. rewrite Hth, Hst, Htr, Hpc.
  repeat split; done.
Qed.

Lemma brain_burst_runs_to_100_witness :
  finished 0 (run_workers (replicate 304 (0%nat, 0%nat))
                (start_task "brain_burst" (PyInt 0) (PyInt 1) logged_in).1).1 = true ∧
  task_status (state (run_workers (replicate 304 (0%nat, 0%nat))
                (start_task "brain_burst" (PyInt 0) (PyInt 1) logged_in).1).1) = completed ∧
  progress (state (run_workers (replicate 304 (0%nat, 0%nat))
                (start_task "brain_burst" (PyInt 0) (PyInt 1) logged_in).1).1)
    = mkProgress 100 100 ∧
  writes_of 0 (run_workers (replicate 304 (0%nat, 0%nat))
                (start_task "brain_burst" (PyInt 0) (PyInt 1) logged_in).1).2
    = (λ j, mkProgress j 100) <$> seqZ 1 100 ∧
  sleeps_of 0 (run_workers (replicate 304 (0%nat, 0%nat))
                (start_task "brain_burst" (PyInt 0) (PyInt 1) logged_in).1).2
    = replicate 100 100 ∧
  active_threads (state (run_workers (replicate 304 (0%nat, 0%nat))
                (start_task "brain_burst" (PyInt 0) (PyInt 1) logged_in).1).1)
    = active_threads (state (start_task "brain_burst" (PyInt 0) (PyInt 1) logged_in).1) ∧
  cookies (state (run_workers (replicate 304 (0%nat, 0%nat))
                (start_task "brain_burst" (PyInt 0) (PyInt 1) logged_in).1).1)
    = cookies (state (start_task "brain_burst" (PyInt 0) (PyInt 1) logged_in).1).
Proof.
  apply (brain_burst_runs_to_100 0 0 304 (PyInt 0) (PyInt 1)
           (start_task "brain_burst" (PyInt 0) (PyInt 1) logged_in).1).
  - reflexivity.
  - reflexivity.
  - lia.
Defined.

(** X11: a duration task with an integer duration [d] that is not
    cancelled.  It returns after 3 max(d,0) + 4 statements with status
    [completed], having written (0,d), (1,d), ..., (d-1,d) and slept one
    second after each; so its last progress is (d-1,d), never (d,d), and
    for [d ≤ 0] it writes nothing and leaves the progress as it found
    it. *)
Theorem afk_int_stops_one_short
    (tid entropy n : nat) (u : PyVal) (d : Z) (sys : System) :
  threads sys !! tid = Some (mkThread AwayFromKeyboard u (PyInt d) Spawned) →
  stop_event (state sys) = false →
  (3 * Z.to_nat d + 4 ≤ n)%nat →
  finished tid (run_workers (replicate n (tid, entropy)) sys).1 = true ∧
  task_status (state (run_workers (replicate n (tid, entropy)) sys).1) = completed ∧
  writes_of tid (run_workers (replicate n (tid, entropy)) sys).2
    = (λ j, mkProgress j d) <$> seqZ 0 (Z.max d 0) ∧
  sleeps_of tid (run_workers (replicate n (tid, entropy)) sys).2
    = replicate (Z.to_nat d) 1000 ∧
  progress (state (run_workers (replicate n (tid, entropy)) sys).1)
    = (if decide (0 < d) then mkProgress (d - 1) d else progress (state sys)).
Proof.
  intros Ht Hstop Hn.
  destruct (run_workers_alone n tid entropy sys _ Ht) as (Hth & Hst & Htr).
  pose proof (local_run_uncancelled (Z.to_nat d) (n - (3 * Z.to_nat d + 4)) tid entropy
                AwayFromKeyboard u (PyInt d) 0 d d (state sys) eq_refl Hstop
                ltac:(f_equal; lia)) as H.
  cbv zeta in H.
  replace (3 * Z.to_nat d + 4 + (n - (3 * Z.to_nat d + 4)))%nat with n in H by lia.
  destruct H as (Hpc & Hstat & Hprog & Hact & Hck & Hw & Hsl).
  unfold finished, is_alive. rewrite Hth, Hst, Htr, Hpc, Hw, Hsl, Hstat, Hprog.
  assert (Hlen : Z.of_nat (Z.to_nat d) = Z.max d 0) by lia.
  rewrite Hlen.
  destruct (decide (0 < d)) as [Hpos|Hneg].
  - rewrite decide_False by lia. by repeat split.
  - rewrite decide_True by lia. by repeat split.
Qed.

Lemma afk_int_stops_one_short_witness :
  finished 0 (run_workers (replicate 13 (0%nat, 0%nat))
                (start_task "away_from_keyboard" (PyInt 0) (PyInt 3) logged_in).1).1 = true ∧
  task_status (state (run_workers (replicate 13 (0%nat, 0%nat))
                (start_task "away_from_keyboard" (PyInt 0) (PyInt 3) logged_in).1).1)
    = completed ∧
  writes_of 0 (run_workers (replicate 13 (0%nat, 0%nat))
                (start_task "away_from_keyboard" (PyInt 0) (PyInt 3) logged_in).1).2
    = (λ j, mkProgress j 3) <$> seqZ 0 (Z.max 3 0) ∧
  sleeps_of 0 (run_workers (replicate 13 (0%nat, 0%nat))
                (start_task "away_from_keyboard" (PyInt 0) (PyInt 3) logged_in).1).2
    = replicate (Z.to_nat 3) 1000 ∧
  progress (state (run_workers (replicate 13 (0%nat, 0%nat))
                (start_task "away_from_keyboard" (PyInt 0) (PyInt 3) logged_in).1).1)
    = (if decide (0 < 3) then mkProgress (3 - 1) 3
       else progress (state (start_task "away_from_keyboard" (PyInt 0) (PyInt 3)
                               logged_in).1)).
Proof.
  apply (afk_int_stops_one_short 0 0 13 (PyInt 0) 3
           (start_task "away_from_keyboard" (PyInt 0) (PyInt 3) logged_in).1).
  - reflexivity.
  - reflexivity.
  - vm_compute. lia.
Defined.

Lemma bad_duration_raises u p pcv entropy :
  bad_duration p →
  ∃ e, loop_header (mkThread AwayFromKeyboard u p pcv) entropy = Raise e.
Proof.
  unfold loop_header, randint_star, randint. cbn [kind param].
  destruct p as [d|items|items|]; try (by eauto).
  destruct items as [|a [|b [|c items]]]; try (by eauto).
  simpl. intros Hlt. apply Z.ltb_lt in Hlt. rewrite Hlt. eauto.
Qed.

(** X12: a duration task whose duration cannot be resolved.  If the
    duration is not an int and not a pair (a, b) with a ≤ b (a list, a
    string, a pair in the wrong order, a tuple of another length), the
    thread returns after three statements with status [error], whether or
    not the cancellation signal is set; it writes no progress and never
    sleeps. *)
Theorem afk_bad_duration_ends_in_error
    (tid entropy n : nat) (u p : PyVal) (sys : System) :
  threads sys !! tid = Some (mkThread AwayFromKeyboard u p Spawned) →
  bad_duration p →
  (3 ≤ n)%nat →
  finished tid (run_workers (replicate n (tid, entropy)) sys).1 = true ∧
  task_status (state (run_workers (replicate n (tid, entropy)) sys).1) = error ∧
  progress (state (run_workers (replicate n (tid, entropy)) sys).1)
    = progress (state sys) ∧
  writes_of tid (run_workers (replicate n (tid, entropy)) sys).2 = [] ∧
  sleeps_of tid (run_workers (replicate n (tid, entropy)) sys).2 = [].
Proof.
  intros Ht Hbad Hn.
  destruct (run_workers_alone n tid entropy sys _ Ht) as (Hth & Hst & Htr).
  destruct (bad_duration_raises u p Spawned entropy Hbad) as [e He].
  replace n with (S (S (S (n - 3)))) in Hth, Hst, Htr by lia.
  rewrite !local_run_step in Hth, Hst, Htr. cbv zeta in Hth, Hst, Htr.
  unfold next_pc, next_state, step_events in Hth, Hst, Htr.
  cbn [pc with_pc kind unit_idx param] in Hth, Hst, Htr.
  change (loop_header _ entropy)
    with (loop_header (mkThread AwayFromKeyboard u p Spawned) entropy) in Hth, Hst, Htr.
  rewrite He in Hth, Hst, Htr.
  cbn [pc with_pc kind unit_idx param] in Hth, Hst, Htr.
  rewrite local_run_done in Hth, Hst, Htr by reflexivity.
  cbn [fst snd app] in Hth, Hst, Htr.
  replace (S (S (S (n - 3)))) with n in Hth, Hst, Htr by lia.
  unfold finished, is_alive. rewrite Hth, Hst, Htr. by repeat split.
Qed.

Lemma afk_bad_duration_ends_in_error_witness :
  finished 0 (run_workers (replicate 3 (0%nat, 7%nat))
                (start_task "away_from_keyboard" (PyInt 0) (PyTuple [5; 2]) logged_in).1).1
    = true ∧
  task_status (state (run_workers (replicate 3 (0%nat, 7%nat))
                (start_task "away_from_keyboard" (PyInt 0) (PyTuple [5; 2]) logged_in).1).1)
    = error ∧
  progress (state (run_workers (replicate 3 (0%nat, 7%nat))
                (start_task "away_from_keyboard" (PyInt 0) (PyTuple [5; 2]) logged_in).1).1)
    = progress (state (start_task "away_from_keyboard" (PyInt 0) (PyTuple [5; 2])
                         logged_in).1) ∧
  writes_of 0 (run_workers (replicate 3 (0%nat, 7%nat))
                (start_task "away_from_keyboard" (PyInt 0) (PyTuple [5; 2]) logged_in).1).2
    = [] ∧
  sleeps_of 0 (run_workers (replicate 3 (0%nat, 7%nat))
                (start_task "away_from_keyboard" (PyInt 0) (PyTuple [5; 2]) logged_in).1).2
    = [].
Proof.
  apply (afk_bad_duration_ends_in_error 0 7 3 (PyInt 0) (PyTuple [5; 2])
           (start_task "away_from_keyboard" (PyInt 0) (PyTuple [5; 2]) logged_in).1).
  - reflexivity.
  - simpl. lia.
  - lia.
Defined.

Lemma not_a_number_bad j : not_a_number j → bad_duration (py_of_json j).
Proof. by destruct j. Qed.

(** X13: a duration range cannot be sent over HTTP.  A request for an
    [away_from_keyboard] task whose [params] is not a JSON number or
    boolean (an array such as [[2, 2]], a string, null) is accepted when
    the status is idle, because the decoded value is never a tuple; the
    thread it starts returns after three statements with status [error]
    and no progress written. *)
Theorem json_duration_must_be_a_number
    (data : gmap string JVal) (u p : JVal) (entropy n : nat) (sys : System) :
  task_status (state sys) = idle →
  data !! "type" = Some (JStr "away_from_keyboard") →
  data !! "unitIndex" = Some u →
  data !! "params" = Some p →
  not_a_number p →
  (3 ≤ n)%nat →
  responses (start_task_json data sys).2 = [ok_response] ∧
  finished (length (threads sys))
    (run_workers (replicate n (length (threads sys), entropy))
                 (start_task_json data sys).1).1 = true ∧
  task_status
    (state (run_workers (replicate n (length (threads sys), entropy))
                        (start_task_json data sys).1).1) = error ∧
  writes_of (length (threads sys))
    (run_workers (replicate n (length (threads sys), entropy))
                 (start_task_json data sys).1).2 = [].
Proof.
  intros Hidle Hty Hu Hp Hnum Hn.
  assert (Hstart : start_task_json data sys
                   = start_task "away_from_keyboard" (py_of_json u) (py_of_json p) sys).
  { unfold start_task_json. by rewrite Hidle, Hty, Hu, Hp. }
  rewrite Hstart.
  assert (Hth : threads (start_task "away_from_keyboard" (py_of_json u) (py_of_json p) sys).1
                !! length (threads sys)
                = Some (mkThread AwayFromKeyboard (py_of_json u) (py_of_json p) Spawned)).
  { unfold start_task. rewrite Hidle. simpl.
    rewrite lookup_app_r by lia. by rewrite Nat.sub_diag. }
  split.
  { unfold start_task. by rewrite Hidle. }
  pose proof (not_a_number_bad p Hnum) as Hbad.
  destruct (run_workers_alone n (length (threads sys)) entropy _ _ Hth) as (H1 & H2 & H3).
  destruct (bad_duration_raises (py_of_json u) (py_of_json p) Spawned entropy Hbad)
    as [e He].
  replace n with (S (S (S (n - 3)))) in H1, H2, H3 by lia.
  rewrite !local_run_step in H1, H2, H3. cbv zeta in H1, H2, H3.
  unfold next_pc, next_state, step_events in H1, H2, H3.
  cbn [pc with_pc kind unit_idx param] in H1, H2, H3.
  change (loop_header _ entropy)
    with (loop_header (mkThread AwayFromKeyboard (py_of_json u) (py_of_json p) Spawned)
                      entropy) in H1, H2, H3.
  rewrite He in H1, H2, H3.
  cbn [pc with_pc kind unit_idx param] in H1, H2, H3.
  rewrite local_run_done in H1, H2, H3 by reflexivity.
  cbn [fst snd app] in H1, H2, H3.
  replace (S (S (S (n - 3)))) with n in H1, H2, H3 by lia.
  unfold finished, is_alive. rewrite H1, H2, H3. by repeat split.
Qed.

Lemma json_duration_must_be_a_number_witness :
  responses
    (start_task_json
       (<["type" := JStr "away_from_keyboard"]>
          (<["unitIndex" := JNum 0]> (<["params" := JArr [2; 2]]> ∅))) logged_in).2
    = [ok_response] ∧
  finished (length (threads logged_in))
    (run_workers (replicate 3 (length (threads logged_in), 0%nat))
       (start_task_json
          (<["type" := JStr "away_from_keyboard"]>
             (<["unitIndex" := JNum 0]> (<["params" := JArr [2; 2]]> ∅))) logged_in).1).1
    = true ∧
  task_status
    (state (run_workers (replicate 3 (length (threads logged_in), 0%nat))
       (start_task_json
          (<["type" := JStr "away_from_keyboard"]>
             (<["unitIndex" := JNum 0]> (<["params" := JArr [2; 2]]> ∅))) logged_in).1).1)
    = error ∧
  writes_of (length (threads logged_in))
    (run_workers (replicate 3 (length (threads logged_in), 0%nat))
       (start_task_json
          (<["type" := JStr "away_from_keyboard"]>
             (<["unitIndex" := JNum 0]> (<["params" := JArr [2; 2]]> ∅))) logged_in).1).2
    = [].
Proof.
  apply (json_duration_must_be_a_number
           (<["type" := JStr "away_from_keyboard"]>
              (<["unitIndex" := JNum 0]> (<["params" := JArr [2; 2]]> ∅)))
           (JNum 0) (JArr [2; 2]) 0 3 logged_in).
  - reflexivity.
  - reflexivity.
  - reflexivity.
  - reflexivity.
  - exact I.
  - lia.
Defined.

(** ** What a run can and cannot change *)

Lemma worker_step_keeps st tid entropy sys :
  kept_by_workers st →
  task_status (state (worker_step tid entropy sys).1) = st →
  task_status (state sys) = st.
Proof.
  intros Hst Hafter.
  destruct (worker_step_status tid entropy sys) as [H|[H|[H|[H|H]]]];
    rewrite H in Hafter; [done|..]; destruct Hst; congruence.
Qed.

Lemma run_workers_keeps st sched sys :
  kept_by_workers st →
  task_status (state (run_workers sched sys).1) = st →
  task_status (state sys) = st.
Proof.
  intros Hst. revert sys. induction sched as [|[tid e] rest IH]; intros sys; [done|].
  rewrite run_workers_cons. simpl. intros H.
  eapply worker_step_keeps; [done|]. by apply IH.
Qed.

Lemma exec_not_idle l sys :
  successful_login l = false →
  task_status (state sys) ≠ idle →
  task_status (state (exec l sys).1) ≠ idle ∧
  length (threads (exec l sys).1) = length (threads sys).
Proof.
  intros Hl Hst. destruct l as [text valid| | |ty u p|during| |tid e]; simpl in *; try done.
  - unfold api_login. destruct (cookie_dict text); [destruct valid|]; done.
  - unfold start_task. by rewrite bool_decide_eq_true_2.
  - rewrite stop_tasks_unfold. simpl. split; [done|].
    by destruct (join_all_frame (active_threads (state sys)) during
                   (with_state (set_stop_event true) sys)) as (_ & _ & _ & _ & ->).
  - split.
    + intros H. apply Hst. eapply worker_step_keeps; [by left|done].
    + by destruct (worker_step_frame tid e sys) as (_ & _ & _ & _ & ->).
Qed.

(** X14: only a login makes the status [idle].  From a state whose
    status is not [idle], no sequence of starts, stops, queries, failed
    logins and worker statements brings it back to [idle]; so every start
    request in it is refused and not a single thread is created until a
    login succeeds. *)
Theorem only_login_makes_idle (ls : list Label) (sys : System) :
  task_status (state sys) ≠ idle →
  Forall (λ l, successful_login l = false) ls →
  task_status (state (run ls sys).1) ≠ idle ∧
  length (threads (run ls sys).1) = length (threads sys).
Proof.
  intros Hst Hls. revert sys Hst.
  induction Hls as [|l ls Hl _ IH]; intros sys Hst; [done|].
  rewrite run_cons. simpl.
  destruct (exec_not_idle l sys Hl Hst) as [Hst1 Hlen1].
  destruct (IH _ Hst1) as [Hst2 Hlen2]. split; [done|]. by rewrite Hlen2.
Qed.

Lemma only_login_makes_idle_witness :
  task_status
    (state (run [StartTask "brain_burst" (PyInt 0) (PyInt 1); WorkerStep 0 0;
                 ApiLogin "junk" true; StopTasks [];
                 StartTask "away_from_keyboard" (PyInt 0) (PyInt 3)]
                about_to_return).1) ≠ idle ∧
  length (threads (run [StartTask "brain_burst" (PyInt 0) (PyInt 1); WorkerStep 0 0;
                        ApiLogin "junk" true; StopTasks [];
                        StartTask "away_from_keyboard" (PyInt 0) (PyInt 3)]
                       about_to_return).1)
    = length (threads about_to_return).
Proof.
  apply (only_login_makes_idle
           [StartTask "brain_burst" (PyInt 0) (PyInt 1); WorkerStep 0 0;
            ApiLogin "junk" true; StopTasks [];
            StartTask "away_from_keyboard" (PyInt 0) (PyInt 3)]
           about_to_return).
  - vm_compute. discriminate.
  - repeat constructor.
Defined.

Lemma exec_keeps_session l sys :
  keeps_registration l = true →
  cookies (state (exec l sys).1) = cookies (state sys) ∧
  (task_status (state (exec l sys).1) = nologon → task_status (state sys) = nologon).
Proof.
  intros Hl. destruct l as [text valid| | |ty u p|during| |tid e]; simpl in *; try done.
  - unfold start_task. case_bool_decide; [done|]. by destruct (kind_of_type ty).
  - split.
    + by destruct (worker_step_frame tid e sys) as (_ & _ & -> & _).
    + apply worker_step_keeps. by right.
Qed.

(** X15: task activity never logs the session out.  Once the session is
    authenticated (credentials set, status not [nologon]), it stays so,
    with the same credentials, through any starts, queries and worker
    statements; only [api_login] and [stop_tasks] can end it. *)
Theorem task_activity_keeps_session (ls : list Label) (sys : System) :
  is_authenticated (state sys) = true →
  Forall (λ l, keeps_registration l = true) ls →
  is_authenticated (state (run ls sys).1) = true ∧
  cookies (state (run ls sys).1) = cookies (state sys) ∧
  ∀ remote_ok, get_courses remote_ok (run ls sys).1
               ≠ Json false (Literal MSG_PLEASE_LOGIN).
Proof.
  intros Hauth Hls.
  assert (H : is_authenticated (state (run ls sys).1) = true ∧
              cookies (state (run ls sys).1) = cookies (state sys)).
  { revert sys Hauth. induction Hls as [|l ls Hl _ IH]; intros sys Hauth; [done|].
    rewrite run_cons. simpl.
    destruct (exec_keeps_session l sys Hl) as [Hck Hst].
    assert (Hauth1 : is_authenticated (state (exec l sys).1) = true).
    { unfold is_authenticated, not_logged_in in *. rewrite Hck.
      apply negb_true_iff, orb_false_iff in Hauth as [Hc Hn].
      apply negb_true_iff, orb_false_iff. split; [done|].
      apply bool_decide_eq_false in Hn. apply bool_decide_eq_false. tauto. }
    destruct (IH _ Hauth1) as [H1 H2]. split; [done|]. by rewrite H2. }
  destruct H as [H1 H2]. repeat split; [done..|].
  intros remote_ok. unfold get_courses. unfold is_authenticated in H1.
  apply negb_true_iff in H1. rewrite H1. by destruct remote_ok.
Qed.

Lemma task_activity_keeps_session_witness :
  is_authenticated
    (state (run [StartTask "brain_burst" (PyInt 0) (PyInt 1); WorkerStep 0 0;
                 GetStatus; WorkerStep 0 0] logged_in).1) = true ∧
  cookies (state (run [StartTask "brain_burst" (PyInt 0) (PyInt 1); WorkerStep 0 0;
                       GetStatus; WorkerStep 0 0] logged_in).1)
    = cookies (state logged_in) ∧
  ∀ remote_ok,
    get_courses remote_ok
      (run [StartTask "brain_burst" (PyInt 0) (PyInt 1); WorkerStep 0 0;
            GetStatus; WorkerStep 0 0] logged_in).1
    ≠ Json false (Literal MSG_PLEASE_LOGIN).
Proof.
  apply (task_activity_keeps_session
           [StartTask "brain_burst" (PyInt 0) (PyInt 1); WorkerStep 0 0;
            GetStatus; WorkerStep 0 0] logged_in).
  - reflexivity.
  - repeat constructor.
Defined.

Lemma exec_registers l sys :
  keeps_registration l = true →
  (length (threads sys) ≤ length (threads (exec l sys).1))%nat ∧
  active_threads (state (exec l sys).1)
  = active_threads (state sys)
      ++ seq (length (threads sys))
             (length (threads (exec l sys).1) - length (threads sys)).
Proof.
  intros Hl.
  assert (Hsame : ∀ sys' : System,
            length (threads sys') = length (threads sys) →
            active_threads (state sys') = active_threads (state sys) →
            (length (threads sys) ≤ length (threads sys'))%nat ∧
            active_threads (state sys')
            = active_threads (state sys)
                ++ seq (length (threads sys))
                       (length (threads sys') - length (threads sys))).
  { intros sys' -> ->. by rewrite Nat.sub_diag, app_nil_r. }
  destruct l as [text valid| | |ty u p|during| |tid e]; simpl in *; try done;
    try (by apply Hsame).
  - unfold start_task. case_bool_decide; [by apply Hsame|].
    destruct (kind_of_type ty); [|by apply Hsame]. simpl.
    rewrite length_app. simpl. split; [lia|].
    by replace (length (threads sys) + 1 - length (threads sys))%nat with 1%nat by lia.
  - destruct (worker_step_frame tid e sys) as (_ & Ha & _ & _ & Hlen). by apply Hsame.
Qed.

(** X16: what [activeThreads] counts.  Between two resets (no login, no
    stop), [state.active_threads] is extended by exactly the threads
    created in the meantime, in creation order, and never shrinks: a
    thread that has returned is still counted by [get_status]. *)
Theorem registrations_follow_thread_creation (ls : list Label) (sys : System) :
  Forall (λ l, keeps_registration l = true) ls →
  (length (threads sys) ≤ length (threads (run ls sys).1))%nat ∧
  active_threads (state (run ls sys).1)
  = active_threads (state sys)
      ++ seq (length (threads sys))
             (length (threads (run ls sys).1) - length (threads sys)).
Proof.
  intros Hls. revert sys. induction Hls as [|l ls Hl _ IH]; intros sys.
  - simpl. by rewrite Nat.sub_diag, app_nil_r.
  - rewrite run_cons. simpl.
    destruct (exec_registers l sys Hl) as [Hle1 Ha1].
    destruct (IH (exec l sys).1) as [Hle2 Ha2].
    split; [lia|]. rewrite Ha2, Ha1, <- app_assoc. f_equal.
    generalize dependent (length (threads (run ls (exec l sys).1).1)).
    generalize dependent (length (threads (exec l sys).1)).
    generalize (length (threads sys)).
    intros a b Hab _ c Hbc _.
    replace (c - a)%nat with ((b - a) + (c - b))%nat by lia.
    rewrite seq_app. do 2 f_equal. lia.
Qed.

Lemma registrations_follow_thread_creation_witness :
  (length (threads logged_in)
   ≤ length (threads (run (StartTask "away_from_keyboard" (PyInt 0) (PyInt 1)
                             :: replicate 7 (WorkerStep 0 0)
                             ++ [StartTask "brain_burst" (PyInt 0) (PyInt 1); GetStatus])
                          logged_in).1))%nat ∧
  active_threads
    (state (run (StartTask "away_from_keyboard" (PyInt 0) (PyInt 1)
                   :: replicate 7 (WorkerStep 0 0)
                   ++ [StartTask "brain_burst" (PyInt 0) (PyInt 1); GetStatus])
                logged_in).1)
  = active_threads (state logged_in)
      ++ seq (length (threads logged_in))
             (length (threads (run (StartTask "away_from_keyboard" (PyInt 0) (PyInt 1)
                                      :: replicate 7 (WorkerStep 0 0)
                                      ++ [StartTask "brain_burst" (PyInt 0) (PyInt 1);
                                          GetStatus])
                                   logged_in).1)
              - length (threads logged_in)).
Proof.
  apply (registrations_follow_thread_creation
           (StartTask "away_from_keyboard" (PyInt 0) (PyInt 1)
              :: replicate 7 (WorkerStep 0 0)
              ++ [StartTask "brain_burst" (PyInt 0) (PyInt 1); GetStatus])
           logged_in).
  repeat constructor.
Defined.

(** X17: what a worker never does.  Whatever statements the workers
    execute, they leave the credentials, the registered threads, the
    cancellation signal and the client's cookie jar as they were and
    create no thread; the statuses they can write are the two running
    ones, [completed] and [error], never [idle] or [nologon]. *)
Theorem workers_leave_session_alone (sched : list (nat * nat)) (sys : System) :
  cookies (state (run_workers sched sys).1) = cookies (state sys) ∧
  active_threads (state (run_workers sched sys).1) = active_threads (state sys) ∧
  stop_event (state (run_workers sched sys).1) = stop_event (state sys) ∧
  client_cookies (run_workers sched sys).1 = client_cookies sys ∧
  length (threads (run_workers sched sys).1) = length (threads sys) ∧
  (task_status (state (run_workers sched sys).1) = task_status (state sys) ∨
   task_status (state (run_workers sched sys).1) ∈
     [brain_burst; away_from_keyboard; completed; error]).
Proof.
  destruct (run_workers_frame sched sys) as (H1 & H2 & H3 & H4 & H5).
  repeat (split; [done|]).
  clear H1 H2 H3 H4 H5.
  revert sys. induction sched as [|[tid e] rest IH]; intros sys; [by left|].
  rewrite run_workers_cons. simpl.
  destruct (IH (worker_step tid e sys).1) as [Hsame|Hin]; [|by right].
  rewrite Hsame.
  destruct (worker_step_status tid e sys) as [H|[H|[H|[H|H]]]]; rewrite H;
    [by left|right..]; set_solver.
Qed.

Lemma exec_keeps_jar l sys :
  dom (client_cookies sys) ⊆ dom (client_cookies (exec l sys).1).
Proof.
  destruct l as [text valid| | |ty u p|during| |tid e]; simpl; try done.
  - unfold api_login. destruct (cookie_dict text) as [d|]; [destruct valid|]; simpl;
      [|done..]. rewrite dom_union_L. set_solver.
  - unfold start_task. case_bool_decide; [done|]. by destruct (kind_of_type ty).
  - rewrite stop_tasks_unfold. simpl.
    by destruct (join_all_frame (active_threads (state sys)) during
                   (with_state (set_stop_event true) sys)) as (_ & _ & _ & -> & _).
  - by destruct (worker_step_frame tid e sys) as (_ & _ & _ & -> & _).
Qed.

(** X18: nothing ever empties the HTTP client.  [reset] clears
    [state.cookies] but not the cookie jar of the shared client: through
    any run, every cookie name the client holds stays in its jar, and a
    stop leaves the jar exactly as it was. *)
Theorem client_jar_is_never_cleared
    (ls : list Label) (during : list (list (nat * nat))) (sys : System) :
  dom (client_cookies sys) ⊆ dom (client_cookies (run ls sys).1) ∧
  client_cookies (stop_tasks during sys).1 = client_cookies sys ∧
  cookies (state (stop_tasks during sys).1) = None.
Proof.
  split.
  - revert sys. induction ls as [|l ls IH]; intros sys; [done|].
    rewrite run_cons. simpl. etrans; [apply (exec_keeps_jar l sys)|apply IH].
  - rewrite stop_tasks_unfold. simpl.
    by destruct (join_all_frame (active_threads (state sys)) during
                   (with_state (set_stop_event true) sys)) as (_ & _ & _ & -> & _).
Qed.



(** ** The in-memory log *)

Lemma append_assoc (a b c : string) : (a +:+ b) +:+ c = a +:+ (b +:+ c).
Proof.
  induction a as [|x a IH]; [done|].
  change (String x ((a +:+ b) +:+ c) = String x (a +:+ (b +:+ c))). by rewrite IH.
Qed.

Lemma append_empty_r (a : string) : a +:+ EmptyString = a.
Proof.
  induction a as [|x a IH]; [done|].
  change (String x (a +:+ EmptyString) = String x a). by rewrite IH.
Qed.

Lemma logging_run_snoc ops o s :
  Logging.run (ops ++ [o]) s = Logging.step o (Logging.run ops s).
Proof. unfold Logging.run. by rewrite foldl_app. Qed.

Lemma logging_run_app ops1 ops2 s :
  Logging.run (ops1 ++ ops2) s = Logging.run ops2 (Logging.run ops1 s).
Proof. unfold Logging.run. by rewrite foldl_app. Qed.

Lemma logging_logged_snoc ops o :
  Logging.logged (ops ++ [o])
  = Logging.logged ops +:+ Logging.logged [o].
Proof.
  induction ops as [|x ops IH]; [done|].
  destruct x as [|ts msg ty fm|text|text|text]; try exact IH.
  change (Logging.log_entry ts ty msg +:+ Logging.newline +:+ Logging.logged (ops ++ [o])
          = (Logging.log_entry ts ty msg +:+ Logging.newline +:+ Logging.logged ops)
              +:+ Logging.logged [o]).
  by rewrite IH, !append_assoc.
Qed.

Lemma logging_captured_snoc ops o :
  Logging.captured (ops ++ [o])
  = Logging.captured ops +:+ Logging.captured [o].
Proof.
  induction ops as [|x ops IH]; [done|].
  destruct x as [|ts msg ty fm|text|text|text].
  - exact IH.
  - change (fm +:+ Logging.captured (ops ++ [o])
            = (fm +:+ Logging.captured ops) +:+ Logging.captured [o]).
    by rewrite IH, !append_assoc.
  - change (text +:+ Logging.newline +:+ Logging.captured (ops ++ [o])
            = (text +:+ Logging.newline +:+ Logging.captured ops)
                +:+ Logging.captured [o]).
    by rewrite IH, !append_assoc.
  - change (text +:+ Logging.captured (ops ++ [o])
            = (text +:+ Logging.captured ops) +:+ Logging.captured [o]).
    by rewrite IH, !append_assoc.
  - change (text +:+ Logging.captured (ops ++ [o])
            = (text +:+ Logging.captured ops) +:+ Logging.captured [o]).
    by rewrite IH, !append_assoc.
Qed.

(** A write to the buffer the streams refer to, and a write to the one
    [state.log_buffer] refers to, once the two differ. *)
Lemma logging_write_stream l b new old text s :
  Logging.diverged l b new old s →
  Logging.diverged l b new (old +:+ text) (Logging.write b text s).
Proof.
  intros (Hl & Ho & He & Hne & Hn & Hb). unfold Logging.diverged. simpl.
  rewrite list_lookup_alter_eq, list_lookup_alter_ne, Hn, Hb by done.
  by repeat split.
Qed.

Lemma logging_write_log l b new old text s :
  Logging.diverged l b new old s →
  Logging.diverged l b (new +:+ text) old (Logging.write l text s).
Proof.
  intros (Hl & Ho & He & Hne & Hn & Hb). unfold Logging.diverged. simpl.
  rewrite list_lookup_alter_eq, list_lookup_alter_ne, Hn, Hb by done.
  by repeat split.
Qed.

Lemma logging_step_diverged o l b new old s :
  Logging.is_reset o = false →
  Logging.diverged l b new old s →
  Logging.diverged l b (new +:+ Logging.logged [o]) (old +:+ Logging.captured [o])
                   (Logging.step o s).
Proof.
  intros Ho Hs. pose proof Hs as (Hl & Hout & Herr & _).
  destruct o as [|ts msg ty fm|text|text|text]; [done|..]; simpl.
  - unfold Logging.log_message. simpl. rewrite Herr, Hl. simpl.
    rewrite !append_empty_r.
    apply (logging_write_log l b _ _ (Logging.log_entry ts ty msg +:+ Logging.newline)) in Hs.
    apply (logging_write_stream l b _ _ fm) in Hs.
    destruct Hs as (H1 & H2 & H3 & H4 & H5 & H6). by repeat split.
  - unfold Logging.print. rewrite Hout. simpl. rewrite !append_empty_r.
    by apply logging_write_stream.
  - rewrite Hout. simpl. rewrite !append_empty_r. by apply logging_write_stream.
  - rewrite Herr. simpl. rewrite !append_empty_r. by apply logging_write_stream.
Qed.

(** After a reset, with both streams on an older buffer: the new buffer
    collects the log entries, the old one everything written to the
    streams. *)
Lemma logging_after_reset ops : ∀ s b old,
  Logging.stdout s = Some b →
  Logging.stderr s = Some b →
  Logging.buffers s !! b = Some old →
  forallb (λ o, negb (Logging.is_reset o)) ops = true →
  Logging.diverged (length (Logging.buffers s)) b
                   (Logging.logged ops) (old +:+ Logging.captured ops)
                   (Logging.run (Logging.Reset :: ops) s).
Proof.
  induction ops as [|o ops IH] using rev_ind; intros s b old Hout Herr Hb Hops.
  - assert (Hlt : (b < length (Logging.buffers s))%nat) by (by eapply lookup_lt_Some).
    unfold Logging.diverged. cbn.
    rewrite lookup_app_r by lia. rewrite Nat.sub_diag.
    rewrite lookup_app_l by done. rewrite Hb, append_empty_r.
    repeat split; try done. lia.
  - rewrite forallb_app in Hops. apply andb_true_iff in Hops as [Hops Ho].
    simpl in Ho. rewrite andb_true_r in Ho. apply negb_true_iff in Ho.
    rewrite app_comm_cons, logging_run_snoc.
    rewrite logging_logged_snoc, logging_captured_snoc, <- append_assoc.
    apply logging_step_diverged; [done|]. by apply IH.
Qed.

Lemma logging_serving_streams before :
  forallb (λ o, negb (Logging.is_reset o)) before = true →
  Logging.stdout (Logging.serving before) = Some 0%nat ∧
  Logging.stderr (Logging.serving before) = Some 0%nat ∧
  length (Logging.buffers (Logging.serving before)) = 1%nat.
Proof.
  intros Hbefore.
  assert (H : Logging.log_buffer (Logging.run before Logging.start) = 0%nat ∧
              Logging.stdout (Logging.run before Logging.start) = None ∧
              Logging.stderr (Logging.run before Logging.start) = None ∧
              length (Logging.buffers (Logging.run before Logging.start)) = 1%nat).
  { induction before as [|o ops IH] using rev_ind; [done|].
    rewrite forallb_app in Hbefore. apply andb_true_iff in Hbefore as [Hops Ho].
    destruct (IH Hops) as (H1 & H2 & H3 & H4). rewrite logging_run_snoc.
    destruct o as [|ts msg ty fm|text|text|text]; [done|..]; simpl.
    - unfold Logging.log_message. simpl. rewrite H3. simpl.
      by rewrite length_alter.
    - unfold Logging.print. by rewrite H2.
    - by rewrite H2.
    - by rewrite H3. }
  destruct H as (H1 & _ & _ & H4).
  unfold Logging.serving. simpl. by rewrite H1.
Qed.

(** X20: the in-memory log after a reset.  While the application serves
    requests inside [with LogCapture(state.log_buffer)], [sys.stdout] and
    [sys.stderr] stay the buffer that existed at start-up.  As soon as a
    handler has called [reset] (any login or stop), [state.log_buffer] is
    a new buffer that holds exactly the entries logged since then, each
    followed by a newline, and nothing that was written to the streams.
    Everything written to the two streams since then is in the start-up
    buffer, which [state] no longer refers to: what was printed, what was
    written to [sys.stderr], and for every log message the line the
    logger's stream handler writes there. *)
Theorem log_buffer_restarts_at_reset (before earlier later : list Logging.Op) :
  forallb (λ o, negb (Logging.is_reset o)) before = true →
  forallb (λ o, negb (Logging.is_reset o)) later = true →
  Logging.stdout
    (Logging.run (earlier ++ Logging.Reset :: later) (Logging.serving before))
    = Some 0%nat ∧
  Logging.stderr
    (Logging.run (earlier ++ Logging.Reset :: later) (Logging.serving before))
    = Some 0%nat ∧
  Logging.log_buffer
    (Logging.run (earlier ++ Logging.Reset :: later) (Logging.serving before))
    ≠ 0%nat ∧
  Logging.content
    (Logging.run (earlier ++ Logging.Reset :: later) (Logging.serving before))
    = Some (Logging.logged later) ∧
  ∃ old,
    Logging.buffers (Logging.run earlier (Logging.serving before)) !! 0%nat = Some old ∧
    Logging.buffers
      (Logging.run (earlier ++ Logging.Reset :: later) (Logging.serving before)) !! 0%nat
    = Some (old +:+ Logging.captured later).
Proof.
  intros Hbefore Hlater.
  destruct (logging_serving_streams before Hbefore) as (Hso & Hse & Hlen).
  assert (Hinv : Logging.stdout (Logging.run earlier (Logging.serving before)) = Some 0%nat ∧
                 Logging.stderr (Logging.run earlier (Logging.serving before)) = Some 0%nat ∧
                 (1 ≤ length (Logging.buffers (Logging.run earlier (Logging.serving before))))%nat).
  { induction earlier as [|o ops IH] using rev_ind.
    { unfold Logging.run. cbn [foldl]. split; [exact Hso|]. split; [exact Hse|lia]. }
    rewrite logging_run_snoc. destruct IH as (IH1 & IH2 & IH3).
    destruct o as [|ts msg ty fm|text|text|text]; simpl.
    - rewrite length_app. repeat split; [done|done|lia].
    - unfold Logging.log_message. simpl. rewrite IH2. simpl.
      by rewrite !length_alter.
    - unfold Logging.print. rewrite IH1. simpl. by rewrite length_alter.
    - rewrite IH1. simpl. by rewrite length_alter.
    - rewrite IH2. simpl. by rewrite length_alter. }
  destruct Hinv as (Hout & Herr & Hge).
  destruct (Logging.buffers (Logging.run earlier (Logging.serving before)) !! 0%nat)
    as [old|] eqn:Hold; [|apply lookup_ge_None in Hold; lia].
  rewrite logging_run_app.
  destruct (logging_after_reset later _ 0%nat old Hout Herr Hold Hlater)
    as (Hlb & Hso' & Hse' & Hne & Hc & Hbuf).
  unfold Logging.content. rewrite Hlb.
  split; [done|]. split; [done|]. split; [lia|]. split; [done|].
  by exists old.
Qed.

Lemma log_buffer_restarts_at_reset_witness :
  Logging.stdout
    (Logging.run
       ([Logging.Print "early"]
          ++ Logging.Reset
          :: [Logging.LogMessage "t1" "login ok" "SYSTEM" "[t1] INFO in app: login ok";
              Logging.Print "late"])
       (Logging.serving [Logging.LogMessage "t0" "no config" "SYSTEM" "line"]))
    = Some 0%nat ∧
  Logging.stderr
    (Logging.run
       ([Logging.Print "early"]
          ++ Logging.Reset
          :: [Logging.LogMessage "t1" "login ok" "SYSTEM" "[t1] INFO in app: login ok";
              Logging.Print "late"])
       (Logging.serving [Logging.LogMessage "t0" "no config" "SYSTEM" "line"]))
    = Some 0%nat ∧
  Logging.log_buffer
    (Logging.run
       ([Logging.Print "early"]
          ++ Logging.Reset
          :: [Logging.LogMessage "t1" "login ok" "SYSTEM" "[t1] INFO in app: login ok";
              Logging.Print "late"])
       (Logging.serving [Logging.LogMessage "t0" "no config" "SYSTEM" "line"]))
    ≠ 0%nat ∧
  Logging.content
    (Logging.run
       ([Logging.Print "early"]
          ++ Logging.Reset
          :: [Logging.LogMessage "t1" "login ok" "SYSTEM" "[t1] INFO in app: login ok";
              Logging.Print "late"])
       (Logging.serving [Logging.LogMessage "t0" "no config" "SYSTEM" "line"]))
    = Some (Logging.logged
              [Logging.LogMessage "t1" "login ok" "SYSTEM" "[t1] INFO in app: login ok";
               Logging.Print "late"]) ∧
  ∃ old,
    Logging.buffers
      (Logging.run [Logging.Print "early"]
         (Logging.serving [Logging.LogMessage "t0" "no config" "SYSTEM" "line"])) !! 0%nat
    = Some old ∧
    Logging.buffers
      (Logging.run
         ([Logging.Print "early"]
            ++ Logging.Reset
            :: [Logging.LogMessage "t1" "login ok" "SYSTEM" "[t1] INFO in app: login ok";
                Logging.Print "late"])
         (Logging.serving [Logging.LogMessage "t0" "no config" "SYSTEM" "line"])) !! 0%nat
    = Some (old +:+ Logging.captured
                      [Logging.LogMessage "t1" "login ok" "SYSTEM" "[t1] INFO in app: login ok";
                       Logging.Print "late"]).
Proof.
  apply (log_buffer_restarts_at_reset
           [Logging.LogMessage "t0" "no config" "SYSTEM" "line"]
           [Logging.Print "early"]
           [Logging.LogMessage "t1" "login ok" "SYSTEM" "[t1] INFO in app: login ok";
            Logging.Print "late"]);
    reflexivity.
Defined.
